(** * Session and profile state management

    A shallow embedding of [src/context/AuthContext.tsx]: the provider's
    operations [fetchUserProfile], [signUp], [signIn], [signOut],
    [updateUserStats] and [updateUserProfile], run against an abstract
    Supabase client.

    Modelling decisions.
    - A JavaScript object (a profile row, an insert or update payload, sign-up
      metadata) is a finite map from field names to JavaScript values.
    - A JavaScript number is modelled by its value, a rational. Comparisons
      and [Math.floor] are exact on values. The sum of two numbers is the
      rounded sum of IEEE doubles, not the exact one: it is an uninterpreted
      operation [number_plus], of which only two laws are assumed. NaN and
      the infinities are not values of the model; a sum that overflows is
      left uninterpreted.
    - The Supabase client is an interface ([Supabase]) over a world state.
      Every call either resolves with a reply or rejects with an error.
    - React state ([user], [userProfile]) is one store; each asynchronous
      operation runs to completion without interleaving with another one.
      Every client call, state write, console line and timer is appended to
      a chronological [log].
    - [fetchUserProfile] calls itself after a successful insert, and nothing
      in the code bounds that chain, so the embedding takes fuel and reports
      [OutOfFuel] with the state reached so far.
    - The [useEffect] block (initial session and subscription) starts
      [fetchUserProfile] and [signOut] without awaiting them: its handlers
      are embedded with those calls recorded as started tasks (see the mount
      effect below). *)

From Stdlib Require Import QArith Qround ZArith List Lia.
From stdpp Require Import gmap strings list fin_maps.

Set Warnings "-register-all".
Local Open Scope string_scope.
Local Open Scope list_scope.

(** ** JavaScript values *)

Inductive JsVal :=
| VUndefined
| VNull
| VBool (b : bool)
| VNum (q : Q)
| VStr (s : string)
| VArr (l : list JsVal).

Abbreviation Obj := (gmap string JsVal).

Record JsError := { code : string; message : string }.

(** ToBoolean. An array is an object, hence truthy even when empty. *)
Definition truthy (v : JsVal) : bool :=
  match v with
  | VUndefined | VNull => false
  | VBool b => b
  | VNum q => negb (Qeq_bool q 0)
  | VStr s => negb (String.eqb s "")
  | VArr _ => true
  end.

(** [a || b] *)
Definition js_or (a b : JsVal) : JsVal := if truthy a then a else b.

(** [v === null || v === undefined] *)
Definition nullish (v : JsVal) : bool :=
  match v with
  | VUndefined | VNull => true
  | _ => false
  end.

(** [a ?? b] *)
Definition js_coalesce (a b : JsVal) : JsVal := if nullish a then b else a.

(** [o.k]: a field that is not there reads as [undefined]. *)
Definition get (o : Obj) (k : string) : JsVal := default VUndefined (o !! k).

(** [o?.k] on a nullable object. *)
Definition opt_get (o : option Obj) (k : string) : JsVal :=
  match o with
  | Some o => get o k
  | None => VUndefined
  end.

(** An object literal [{ k1: v1, ..., kn: vn }] with distinct keys. *)
Definition object (fields : list (string * JsVal)) : Obj := list_to_map fields.

(** [{ ...o, k1: v1, ..., kn: vn }]: the listed fields override those of [o]. *)
Definition spread (o : Obj) (fields : list (string * JsVal)) : Obj :=
  object fields ∪ o.

(** [q === v] for a number [q]: strict equality never coerces. *)
Definition strict_eq_num (q : Q) (v : JsVal) : bool :=
  match v with
  | VNum x => Qeq_bool q x
  | _ => false
  end.

(** Two sums agree: both overflow, or both are finite with the same value. *)
Definition same_sum (a b : option Q) : Prop :=
  match a, b with
  | Some x, Some y => (x == y)%Q
  | None, None => True
  | _, _ => False
  end.

(** JavaScript's arithmetic, as far as the development relies on it.
    - [number_plus x n] is [x + n] on two numbers: the sum rounded to a
      double, or [None] when it overflows to an infinity. It is not the exact
      sum and is left uninterpreted, up to two laws that double addition has:
      it depends on the values of its operands only, and [0 + n] is [n].
    - What [+] yields when the sum overflows or the left operand is not a
      number (string concatenation, ToPrimitive), and what [Math.floor]
      yields on an operand that is not a number, are left uninterpreted.
    The development holds for every reading of these. *)
Class Coercions := {
  number_plus : Q -> Q -> option Q;
  number_plus_proper : forall x x' n n',
    (x == x')%Q -> (n == n')%Q -> same_sum (number_plus x n) (number_plus x' n');
  number_plus_zero : forall n, same_sum (number_plus 0 n) (Some n);
  plus_other : JsVal -> Q -> JsVal;
  floor_other : JsVal -> JsVal
}.

(** [a + n] where [n] is a number. *)
Definition js_add `{Coercions} (a : JsVal) (n : Q) : JsVal :=
  match a with
  | VNum x =>
      match number_plus x n with
      | Some s => VNum s
      | None => plus_other a n
      end
  | _ => plus_other a n
  end.

(** [Math.floor(v)] *)
Definition math_floor `{Coercions} (v : JsVal) : JsVal :=
  match v with
  | VNum x => VNum (inject_Z (Qfloor x))
  | _ => floor_other v
  end.

(** ** The external collaborators *)

(** [SupabaseUser]: the fields the component reads. *)
Record AuthUser := {
  user_id : string;
  user_email : JsVal;
  user_metadata : option Obj
}.

Record Session := { session_user : AuthUser }.

(** An entry of [chaptersData] (data/chapters.json, a static table). *)
Record Chapter := {
  chapter_id : string;
  chapter_class_level : Q;
  chapter_order : Q
}.

(** An awaited promise resolves with a value or rejects with an error. *)
Inductive Reply (A : Type) :=
| Resolved (a : A)
| Rejected (e : JsError).
Arguments Resolved {A} a.
Arguments Rejected {A} e.

(** The [{ data, error }] pair of a [.select('*').eq('id', _).single()]. *)
Record SelectResponse := {
  sel_data : option Obj;
  sel_error : option JsError
}.

(** The [{ data: { user }, error }] of [auth.signUp]. *)
Record SignUpResponse := {
  su_user : option AuthUser;
  su_error : option JsError
}.

(** The calls the component makes on the Supabase client. [W] is the state of
    the world behind the client: each call returns a reply and the next state.
    - [from_select id]: [from('user_profiles').select('*').eq('id', id).single()]
    - [from_insert row]: [from('user_profiles').insert(row)], its [error]
    - [from_update fields id]: [from('user_profiles').update(fields).eq('id', id)]
    - [auth_getSession]: [(await auth.getSession()).data.session]
    - [auth_getUser]: [userData?.user] of [auth.getUser()]
    - [auth_signUp email password data], [auth_signInWithPassword], [auth_signOut] *)
Class Supabase (W : Type) := {
  from_select : string -> W -> Reply SelectResponse * W;
  from_insert : Obj -> W -> Reply (option JsError) * W;
  from_update : Obj -> string -> W -> Reply (option JsError) * W;
  auth_getSession : W -> Reply (option Session) * W;
  auth_getUser : W -> Reply (option AuthUser) * W;
  auth_signUp : string -> string -> Obj -> W -> Reply SignUpResponse * W;
  auth_signInWithPassword : string -> string -> W -> Reply (option JsError) * W;
  auth_signOut : W -> Reply (option JsError) * W
}.

(** ** Observable events *)

(** The body of a timer callback. *)
Inductive Deferred :=
| DeferFetchUserProfile (userId : string).

Inductive Event :=
| CallSelect (userId : string)
| CallInsert (row : Obj)
| CallUpdate (fields : Obj) (userId : string)
| CallGetSession
| CallGetUser
| CallSignUp (email password : string) (data : Obj)
| CallSignIn (email password : string)
| CallSignOut
| SetUser (u : option AuthUser)
| SetUserProfile (p : option Obj)
| ConsoleLog (msg : string) (args : list JsVal)
| ConsoleError (msg : string) (e : JsError)
| SetTimeout (callback : Deferred) (ms : Z).

(** The error a property read on [null] raises. *)
Definition TypeError : JsError :=
  {| code := ""; message := "TypeError: Cannot read properties of null" |}.

(** ** The provider *)

Section Provider.

Context {W : Type} `{Supabase W} `{Coercions}.

(** [chaptersData] *)
Variable chaptersData : list Chapter.

Record State := {
  user : option AuthUser;
  userProfile : option Obj;
  world : W;
  log : list Event
}.

Inductive Outcome (A : Type) :=
| Returned (a : A) (st : State)
| Threw (e : JsError) (st : State)
| OutOfFuel (st : State).
Arguments Returned {A} a st.
Arguments Threw {A} e st.
Arguments OutOfFuel {A} st.

Definition final {A} (o : Outcome A) : State :=
  match o with
  | Returned _ st | Threw _ st | OutOfFuel st => st
  end.

Definition M (A : Type) : Type := State -> Outcome A.

Definition ret {A} (a : A) : M A := fun st => Returned a st.

Definition bind {A B} (m : M A) (k : A -> M B) : M B := fun st =>
  match m st with
  | Returned a st' => k a st'
  | Threw e st' => Threw e st'
  | OutOfFuel st' => OutOfFuel st'
  end.

Notation "'let*' x ':=' m 'in' k" := (bind m (fun x => k))
  (at level 10, x name, m at level 100, k at level 200).
Notation "m ';;' k" := (bind m (fun _ => k))
  (at level 100, k at level 200, right associativity).

Definition throw {A} (e : JsError) : M A := fun st => Threw e st.

(** [try { body } catch (err) { handler }] *)
Definition try_catch {A} (body : M A) (handler : JsError -> M A) : M A := fun st =>
  match body st with
  | Threw e st' => handler e st'
  | o => o
  end.

(** The state after event [ev] has moved the world to [w]. *)
Definition advance (ev : Event) (w : W) (st : State) : State :=
  {| user := user st; userProfile := userProfile st; world := w;
     log := log st ++ [ev] |}.

Definition emit (ev : Event) (st : State) : State := advance ev (world st) st.

(** [await] of a client call: the call is logged, the world advances, and a
    rejection is thrown at the [await]. *)
Definition await {A} (ev : Event) (call : W -> Reply A * W) : M A := fun st =>
  match call (world st) with
  | (Resolved a, w) => Returned a (advance ev w st)
  | (Rejected e, w) => Threw e (advance ev w st)
  end.

(** [m] only appends to the log. *)
Definition extends {A} (m : M A) : Prop :=
  forall st : State, exists evs, log (final (m st)) = log st ++ evs.

Definition setUser (u : option AuthUser) : M unit := fun st =>
  Returned tt {| user := u; userProfile := userProfile st; world := world st;
                 log := log st ++ [SetUser u] |}.

Definition setUserProfile (p : option Obj) : M unit := fun st =>
  Returned tt {| user := user st; userProfile := p; world := world st;
                 log := log st ++ [SetUserProfile p] |}.

(** [setUserProfile(prev => f(prev))] *)
Definition setUserProfile_with (f : option Obj -> option Obj) : M unit := fun st =>
  setUserProfile (f (userProfile st)) st.

Definition console_error (msg : string) (e : JsError) : M unit := fun st =>
  Returned tt (emit (ConsoleError msg e) st).

Definition console_log (msg : string) (args : list JsVal) : M unit := fun st =>
  Returned tt (emit (ConsoleLog msg args) st).

Definition setTimeout (callback : Deferred) (ms : Z) : M unit := fun st =>
  Returned tt (emit (SetTimeout callback ms) st).

(** [firstChapter ? [firstChapter.id] : fallback] *)
Definition chapters_or (firstChapter : option Chapter) (fallback : list JsVal) : JsVal :=
  match firstChapter with
  | Some c => VArr [VStr (chapter_id c)]
  | None => VArr fallback
  end.

(** The row [fetchUserProfile] inserts for a user without a profile. *)
Definition default_profile (u : AuthUser) : Obj :=
  let firstChapter :=
    List.find (fun c => Qeq_bool (chapter_class_level c) 1 && Qeq_bool (chapter_order c) 1)
              chaptersData in
  object [
    ("id", VStr (user_id u));
    ("email", js_or (user_email u) (VStr ""));
    ("name", js_or (opt_get (user_metadata u) "name") (VStr ""));
    ("class_level", VNum 1);
    ("total_coins", VNum 100);
    ("total_correct", VNum 0);
    ("total_wrong", VNum 0);
    ("avatar_id", VNum 1);
    ("unlocked_chapters", chapters_or firstChapter [VStr "class9_ch1"]);
    ("diagnostic_completed", VBool false)
  ].

(** [updatedData] of [fetchUserProfile]: the fetched row with its missing
    fields filled in. *)
Definition updatedData (data : Obj) : Obj :=
  spread data [
    ("total_coins", js_coalesce (js_coalesce (get data "total_coins") (get data "money"))
                      (VNum 100));
    ("unlocked_chapters", js_or (get data "unlocked_chapters") (VArr [VStr "class9_ch1"]));
    ("name", js_or (js_or (get data "name") (get data "full_name")) (VStr "Student"))
  ].

Fixpoint fetchUserProfile (fuel : nat) (userId : string) : M unit :=
  match fuel with
  | O => fun st => OutOfFuel st
  | S fuel =>
    try_catch
      (let* r := await (CallSelect userId) (from_select userId) in
       match sel_error r with
       | Some error =>
         if String.eqb (code error) "PGRST116" then
           let* userData := await CallGetUser auth_getUser in
           match userData with
           | Some u =>
             let* insertError :=
               await (CallInsert (default_profile u)) (from_insert (default_profile u)) in
             match insertError with
             | Some e => throw e
             | None => fetchUserProfile fuel userId
             end
           | None => ret tt
           end
         else throw error
       | None =>
         match sel_data r with
         | None => throw TypeError
         | Some data =>
           let fields := object [("total_coins", get (updatedData data) "total_coins")] in
           (if nullish (get data "total_coins")
            then let* _ := await (CallUpdate fields userId) (from_update fields userId) in
                 ret tt
            else ret tt);;
           setUserProfile (Some data)
         end
       end)
      (fun error => console_error "Error fetching user profile:" error)
  end.

(** The row [signUp] inserts. *)
Definition signUp_profile (email : string) (userData : Obj) (u : AuthUser) : Obj :=
  let firstChapter :=
    List.find (fun c => strict_eq_num (chapter_class_level c) (get userData "class_level")
                        && Qeq_bool (chapter_order c) 1)
              chaptersData in
  object [
    ("id", VStr (user_id u));
    ("email", VStr email);
    ("name", js_or (get userData "name") (VStr ""));
    ("class_level", js_or (get userData "class_level") (VNum 1));
    ("total_coins", VNum 0);
    ("total_correct", VNum 0);
    ("total_wrong", VNum 0);
    ("avatar_id", VNum 1);
    ("unlocked_chapters", chapters_or firstChapter []);
    ("diagnostic_completed", VBool false);
    ("phone", js_or (get userData "phone") VNull);
    ("full_name", js_or (get userData "name") (VStr ""));
    ("avatar_url", VNull);
    ("money", VNum 100)
  ].

(** [options.data], the metadata [signUp] hands to the Auth Service. *)
Definition signUp_options (userData : Obj) : Obj :=
  object [("name", get userData "name");
          ("class_level", get userData "class_level")].

Definition signUp (fuel : nat) (email password : string) (userData : Obj) : M unit :=
  let options := signUp_options userData in
  let* r := await (CallSignUp email password options) (auth_signUp email password options) in
  match su_error r with
  | Some error => throw error
  | None =>
    match su_user r with
    | Some u =>
      let row := signUp_profile email userData u in
      let* userError := await (CallInsert row) (from_insert row) in
      match userError with
      | Some e => throw e
      | None => fetchUserProfile fuel (user_id u)
      end
    | None => ret tt
    end
  end.

Definition signIn (email password : string) : M unit :=
  let* error := await (CallSignIn email password) (auth_signInWithPassword email password) in
  match error with
  | Some e => throw e
  | None => ret tt
  end.

Definition signOut : M unit :=
  try_catch
    (let* session := await CallGetSession auth_getSession in
     match session with
     | Some _ =>
       let* error := await CallSignOut auth_signOut in
       match error with
       | Some e => throw e
       | None => ret tt
       end
     | None => ret tt
     end;;
     setUser None;;
     setUserProfile None)
    (fun err =>
       setUser None;;
       setUserProfile None;;
       console_error "Sign out error:" err).

(** The totals [updateUserStats] computes from the profile it closes over. *)
Definition newTotalCorrect (profile : option Obj) (correct : Q) : JsVal :=
  js_add (js_or (opt_get profile "total_correct") (VNum 0)) correct.

Definition newTotalWrong (profile : option Obj) (wrong : Q) : JsVal :=
  js_add (js_or (opt_get profile "total_wrong") (VNum 0)) wrong.

Definition currentCoins (profile : option Obj) : JsVal :=
  js_or (js_or (opt_get profile "total_coins") (opt_get profile "money")) (VNum 0).

Definition newTotalCoins (profile : option Obj) (money : Q) : JsVal :=
  math_floor (js_add (currentCoins profile) money).

(** The five fields [updateUserStats] writes, to the store and to the cache. *)
Definition stats_fields (profile : option Obj) (correct wrong money : Q)
  : list (string * JsVal) :=
  [ ("total_correct", newTotalCorrect profile correct);
    ("total_wrong", newTotalWrong profile wrong);
    ("total_coins", newTotalCoins profile money);
    ("money", newTotalCoins profile money);
    ("total_correct_answers", newTotalCorrect profile correct) ].

(** The arguments of the [console.log] line of [updateUserStats]. *)
Definition stats_log_args (u : AuthUser) (profile : option Obj) (correct wrong money : Q)
  : list JsVal :=
  [VStr (user_id u); VStr "Total Coins:"; newTotalCoins profile money;
   VStr "Correct:"; newTotalCorrect profile correct;
   VStr "Wrong:"; newTotalWrong profile wrong].

(** [prev => prev ? { ...prev, fields } : prev] *)
Definition merge_stats (fields : list (string * JsVal)) (prev : option Obj) : option Obj :=
  match prev with
  | Some p => Some (spread p fields)
  | None => prev
  end.

Definition updateUserStats (correct wrong money : Q) : M unit := fun st =>
  match user st with
  | None => Returned tt st
  | Some u =>
    let fields := stats_fields (userProfile st) correct wrong money in
    (console_log "[updateUserStats] Updating user:"
       (stats_log_args u (userProfile st) correct wrong money);;
     let* error := await (CallUpdate (object fields) (user_id u))
                         (from_update (object fields) (user_id u)) in
     match error with
     | Some e =>
       console_error "[updateUserStats] Supabase update error:" e;;
       throw e
     | None => ret tt
     end;;
     setUserProfile_with (merge_stats fields);;
     setTimeout (DeferFetchUserProfile (user_id u)) 500) st
  end.

Definition updateUserProfile (fuel : nat) (updates : Obj) : M unit := fun st =>
  match user st with
  | None => Returned tt st
  | Some u =>
    (let* error := await (CallUpdate updates (user_id u)) (from_update updates (user_id u)) in
     match error with
     | Some e => throw e
     | None => ret tt
     end;;
     fetchUserProfile fuel (user_id u)) st
  end.

End Provider.

Arguments Returned {W A} a st.
Arguments Threw {W A} e st.
Arguments OutOfFuel {W A} st.

(** ** An in-memory Supabase

    A model of the two services, used to run the provider on concrete
    inputs: [user_profiles] is a table keyed by [id] with a primary-key
    constraint and column defaults, the Auth Service holds at most one
    session, and every request fails in-band while the network is down. *)

Module Mem.

Record World := {
  table : gmap string Obj;
  column_defaults : Obj;
  session : option AuthUser;
  online : bool
}.

Definition not_found : JsError :=
  {| code := "PGRST116"; message := "JSON object requested, multiple (or no) rows returned" |}.
Definition duplicate_key : JsError :=
  {| code := "23505"; message := "duplicate key value violates unique constraint" |}.
Definition null_id : JsError :=
  {| code := "23502"; message := "null value in column id" |}.
Definition network_error : JsError :=
  {| code := ""; message := "TypeError: Failed to fetch" |}.

Definition with_table (t : gmap string Obj) (w : World) : World :=
  {| table := t; column_defaults := column_defaults w; session := session w;
     online := online w |}.

Definition with_session (s : option AuthUser) (w : World) : World :=
  {| table := table w; column_defaults := column_defaults w; session := s;
     online := online w |}.

Definition select (userId : string) (w : World) : Reply SelectResponse * World :=
  if online w then
    match table w !! userId with
    | Some row => (Resolved {| sel_data := Some row; sel_error := None |}, w)
    | None => (Resolved {| sel_data := None; sel_error := Some not_found |}, w)
    end
  else (Resolved {| sel_data := None; sel_error := Some network_error |}, w).

Definition insert (row : Obj) (w : World) : Reply (option JsError) * World :=
  if online w then
    match row !! "id" with
    | Some (VStr k) =>
      match table w !! k with
      | Some _ => (Resolved (Some duplicate_key), w)
      | None => (Resolved None, with_table (<[k := row ∪ column_defaults w]> (table w)) w)
      end
    | _ => (Resolved (Some null_id), w)
    end
  else (Resolved (Some network_error), w).

Definition update (fields : Obj) (userId : string) (w : World)
  : Reply (option JsError) * World :=
  if online w then
    (Resolved None, with_table (alter (fun row => fields ∪ row) userId (table w)) w)
  else (Resolved (Some network_error), w).

Definition getSession (w : World) : Reply (option Session) * World :=
  (Resolved (option_map (fun u => {| session_user := u |}) (session w)), w).

Definition getUser (w : World) : Reply (option AuthUser) * World :=
  if online w then (Resolved (session w), w) else (Resolved None, w).

Definition account (email : string) (data : Obj) : AuthUser :=
  {| user_id := email; user_email := VStr email; user_metadata := Some data |}.

Definition register (email password : string) (data : Obj) (w : World)
  : Reply SignUpResponse * World :=
  if online w then
    (Resolved {| su_user := Some (account email data); su_error := None |},
     with_session (Some (account email data)) w)
  else (Resolved {| su_user := None; su_error := Some network_error |}, w).

Definition login (email password : string) (w : World) : Reply (option JsError) * World :=
  if online w then (Resolved None, with_session (Some (account email ∅)) w)
  else (Resolved (Some network_error), w).

Definition logout (w : World) : Reply (option JsError) * World :=
  if online w then (Resolved None, with_session None w)
  else (Resolved (Some network_error), w).

Definition client : Supabase World := {|
  from_select := select;
  from_insert := insert;
  from_update := update;
  auth_getSession := getSession;
  auth_getUser := getUser;
  auth_signUp := register;
  auth_signInWithPassword := login;
  auth_signOut := logout
|}.

(** The arithmetic of the concrete runs: sums are exact and never overflow.
    On the numbers those runs use (small integers and halves, and one tenth
    below a floor) the exact sum has the value, or the floor, of the double
    sum. The runs only add and floor numbers, so the reading of the
    remaining coercions is never consulted by them. *)
Definition coercions : Coercions := {|
  number_plus := fun x n => Some (x + n)%Q;
  number_plus_proper := fun x x' n n' Hx Hn => Qplus_comp x x' Hx n n' Hn;
  number_plus_zero := fun n => Qplus_0_l n;
  plus_other := fun _ _ => VUndefined;
  floor_other := fun _ => VUndefined
|}.

Definition start (u : option AuthUser) (p : option Obj) (w : World) : State :=
  {| user := u; userProfile := p; world := w; log := [] |}.

End Mem.

(** ** Scenarios

    What the client answers, as seen by one call of [fetchUserProfile]. *)

Section Scenarios.

Context {W : Type} `{Supabase W}.
Variable chaptersData : list Chapter.

(** The select answers with the not-found code: the row is missing. *)
Definition select_not_found (userId : string) (w w' : W) : Prop :=
  exists r e, from_select userId w = (Resolved r, w')
              /\ sel_error r = Some e /\ code e = "PGRST116".

(** The select answers with a row and no error. *)
Definition select_found (userId : string) (data : Obj) (w w' : W) : Prop :=
  exists r, from_select userId w = (Resolved r, w')
            /\ sel_error r = None /\ sel_data r = Some data.

(** The payload of the backfill update. *)
Definition backfill_fields (data : Obj) : Obj :=
  object [("total_coins", get (updatedData data) "total_coins")].

(** The backfill of a fetched row went through: either the row needs none,
    or the update call resolved (with or without an error in its reply). *)
Definition backfilled (userId : string) (data : Obj) (w w' : W) : Prop :=
  if nullish (get data "total_coins")
  then exists r, from_update (backfill_fields data) userId w = (Resolved r, w')
  else w' = w.

(** The events of a call that finds [data]. *)
Definition found_events (userId : string) (data : Obj) : list Event :=
  CallSelect userId
  :: (if nullish (get data "total_coins")
      then [CallUpdate (backfill_fields data) userId] else [])
  ++ [SetUserProfile (Some data)].

(** The self-heal went through: the row is missing, the Auth Service names
    the current user [u], and the insert of the default row is accepted. *)
Definition healed (userId : string) (u : AuthUser) (w w' : W) : Prop :=
  exists w1 w2, select_not_found userId w w1
                /\ auth_getUser w1 = (Resolved (Some u), w2)
                /\ from_insert (default_profile chaptersData u) w2 = (Resolved None, w').

Definition heal_events (userId : string) (u : AuthUser) : list Event :=
  [CallSelect userId; CallGetUser; CallInsert (default_profile chaptersData u)].

(** [fetch_fails userId w e evs]: started in world [w], the call runs into the
    error [e] after issuing the client calls [evs]. The last rule is the
    re-fetch after a self-heal. *)
Inductive fetch_fails (userId : string) : W -> JsError -> list Event -> Prop :=
| fails_select_rejected w w' e :
    from_select userId w = (Rejected e, w') ->
    fetch_fails userId w e [CallSelect userId]
| fails_select_error w w' r e :
    from_select userId w = (Resolved r, w') ->
    sel_error r = Some e ->
    code e <> "PGRST116" ->
    fetch_fails userId w e [CallSelect userId]
| fails_select_no_data w w' r :
    from_select userId w = (Resolved r, w') ->
    sel_error r = None ->
    sel_data r = None ->
    fetch_fails userId w TypeError [CallSelect userId]
| fails_backfill_rejected w w1 w2 data e :
    select_found userId data w w1 ->
    nullish (get data "total_coins") = true ->
    from_update (backfill_fields data) userId w1 = (Rejected e, w2) ->
    fetch_fails userId w e [CallSelect userId; CallUpdate (backfill_fields data) userId]
| fails_getUser_rejected w w1 w2 e :
    select_not_found userId w w1 ->
    auth_getUser w1 = (Rejected e, w2) ->
    fetch_fails userId w e [CallSelect userId; CallGetUser]
| fails_insert_rejected w w1 w2 w3 u e :
    select_not_found userId w w1 ->
    auth_getUser w1 = (Resolved (Some u), w2) ->
    from_insert (default_profile chaptersData u) w2 = (Rejected e, w3) ->
    fetch_fails userId w e (heal_events userId u)
| fails_insert_error w w1 w2 w3 u e :
    select_not_found userId w w1 ->
    auth_getUser w1 = (Resolved (Some u), w2) ->
    from_insert (default_profile chaptersData u) w2 = (Resolved (Some e), w3) ->
    fetch_fails userId w e (heal_events userId u)
| fails_refetch w w' u e evs :
    healed userId u w w' ->
    fetch_fails userId w' e evs ->
    fetch_fails userId w e (heal_events userId u ++ evs).

(** A client call, as opposed to a state write, a console line or a timer. *)
Definition is_call (ev : Event) : bool :=
  match ev with
  | SetUser _ | SetUserProfile _ | ConsoleLog _ _ | ConsoleError _ _ | SetTimeout _ _ => false
  | _ => true
  end.

(** The optimistic cache write and the re-fetch timer of [updateUserStats]. *)
Definition is_optimistic (ev : Event) : bool :=
  match ev with
  | SetUserProfile _ | SetTimeout _ _ => true
  | _ => false
  end.

Definition is_console_error (ev : Event) : bool :=
  match ev with
  | ConsoleError _ _ => true
  | _ => false
  end.

Definition is_insert (ev : Event) : bool :=
  match ev with
  | CallInsert _ => true
  | _ => false
  end.

End Scenarios.

(** ** The vocabulary of the specification *)

(** The number a field of the cached profile holds, if it holds one. *)
Definition number_of (profile : option Obj) (k : string) : option Q :=
  match opt_get profile k with
  | VNum q => Some q
  | _ => None
  end.

(** The field is a number or is missing ([null], [undefined], or no cached
    profile at all): what the declared type of a counter or balance allows. *)
Definition number_or_missing (profile : option Obj) (k : string) : Prop :=
  match opt_get profile k with
  | VNum _ | VNull | VUndefined => True
  | _ => False
  end.

Definition stats_typed (profile : option Obj) : Prop :=
  number_or_missing profile "total_correct"
  /\ number_or_missing profile "total_wrong"
  /\ number_or_missing profile "total_coins"
  /\ number_or_missing profile "money".

(** The old value of a counter, a missing field read as zero. *)
Definition old_total (profile : option Obj) (k : string) : Q :=
  default 0%Q (number_of profile k).

(** The old balance the way the specification words it: [total_coins], and
    the legacy [money] field only if [total_coins] is absent. *)
Definition old_coins_if_absent (profile : option Obj) : Q :=
  match number_of profile "total_coins" with
  | Some q => q
  | None => old_total profile "money"
  end.

(** The old balance the way [||] selects it: [total_coins] unless it is
    absent or zero, then [money] unless it is absent or zero, then zero. *)
Definition old_coins_if_falsy (profile : option Obj) : Q :=
  match number_of profile "total_coins" with
  | Some q => if Qeq_bool q 0 then old_total profile "money" else q
  | None => old_total profile "money"
  end.

(** The catalog is keyed by (class level, order): two entries with the same
    key name the same chapter. *)
Definition keyed (chapters : list Chapter) : Prop :=
  forall c c', In c chapters -> In c' chapters ->
    (chapter_class_level c == chapter_class_level c')%Q ->
    (chapter_order c == chapter_order c')%Q ->
    chapter_id c = chapter_id c'.

(** [c] is a chapter of class level [lvl] with order 1. *)
Definition first_of_level (lvl : Q) (c : Chapter) : Prop :=
  (chapter_class_level c == lvl)%Q /\ (chapter_order c == 1)%Q.

(** [c] is the first entry of the catalog, in catalog order, that is a
    first chapter of level [lvl]. *)
Definition first_chapter_of (lvl : Q) (chapters : list Chapter) (c : Chapter) : Prop :=
  exists pre post, chapters = pre ++ c :: post
                   /\ first_of_level lvl c
                   /\ forall x, In x pre -> ~ first_of_level lvl x.

Definition no_chapter_of (lvl : Q) (chapters : list Chapter) : Prop :=
  forall c, In c chapters -> ~ first_of_level lvl c.

(** ** Concrete inputs *)

Module Examples.

Definition ann : AuthUser :=
  {| user_id := "u1"; user_email := VStr "ann@example.org";
     user_metadata := Some (object [("name", VStr "Ann")]) |}.

Definition catalog : list Chapter :=
  [ {| chapter_id := "class1_ch1"; chapter_class_level := 1; chapter_order := 1 |};
    {| chapter_id := "class9_ch1"; chapter_class_level := 9; chapter_order := 1 |};
    {| chapter_id := "class9_ch2"; chapter_class_level := 9; chapter_order := 2 |} ].

(** A database whose [created_by] column has a default. *)
Definition defaults : Obj := object [("created_by", VStr "trigger")].

Definition world_of (t : gmap string Obj) (s : option AuthUser) (up : bool) : Mem.World :=
  {| Mem.table := t; Mem.column_defaults := defaults; Mem.session := s; Mem.online := up |}.

(** A legacy row: no [total_coins], a [money] balance of 75. *)
Definition legacy_row : Obj :=
  object [("id", VStr "u1"); ("name", VStr "Ann"); ("total_coins", VNull);
          ("money", VNum 75)].

(** The row of a user right after [signUp]: [total_coins] 0, [money] 100. *)
Definition fresh_row : Obj :=
  object [("id", VStr "u1"); ("total_correct", VNum 0); ("total_wrong", VNum 0);
          ("total_coins", VNum 0); ("money", VNum 100)].

Definition played_row : Obj :=
  object [("id", VStr "u1"); ("total_correct", VNum 5); ("total_wrong", VNum 3);
          ("total_coins", VNum 50)].

Definition new_user_data : Obj := object [("name", VStr "Ann"); ("class_level", VNum 9)].

Definition class9_ch1 : Chapter :=
  {| chapter_id := "class9_ch1"; chapter_class_level := 9; chapter_order := 1 |}.

(** Nobody has a row; Ann may or may not be signed in. *)
Definition no_rows (s : option AuthUser) : Mem.World := world_of ∅ s true.

(** Ann's row is stored and she is signed in. *)
Definition with_row (row : Obj) (up : bool) : Mem.World :=
  world_of {[ "u1" := row ]} (Some ann) up.

(** The default row as the database persists it: with its column defaults. *)
Definition stored_default : Obj := default_profile catalog ann ∪ defaults.

End Examples.

(** ** The mount effect

    The [useEffect] block: the handlers of [getSession().then(..).catch(..)]
    and of [onAuthStateChange]. Both start [fetchUserProfile] or [signOut]
    without awaiting them. Such a call does nothing observable before its
    first [await], so it is recorded as a started task, to be run after the
    handler. The subscription handle and its release are not modelled. *)

(** [s.includes(phrase)] *)
Fixpoint includes (phrase s : string) : bool :=
  String.prefix phrase s
  || match s with
     | EmptyString => false
     | String _ s' => includes phrase s'
     end.

(** A call started without [await]. *)
Inductive Task :=
| StartFetchUserProfile (userId : string)
| StartSignOut.

Section Mount.

Context {W : Type} `{Supabase W}.
Variable chaptersData : list Chapter.

(** The provider's state with its [loading] flag and the calls it has
    started and not awaited. *)
Record Mounted := {
  provider : @State W;
  loading : bool;
  started : list Task
}.

(** A state write or console line inside a handler. *)
Definition effect (m : @M W unit) (p : Mounted) : Mounted :=
  {| provider := final (m (provider p)); loading := loading p; started := started p |}.

Definition start (t : Task) (p : Mounted) : Mounted :=
  {| provider := provider p; loading := loading p; started := started p ++ [t] |}.

Definition setLoading (b : bool) (p : Mounted) : Mounted :=
  {| provider := provider p; loading := b; started := started p |}.

(** [session?.user ?? null] *)
Definition user_of (session : option Session) : option AuthUser :=
  option_map session_user session.

(** The [.then] handler of the initial [getSession]. *)
Definition onSession (session : option Session) (p : Mounted) : Mounted :=
  let p := effect (setUser (user_of session)) p in
  let p := match user_of session with
           | Some u => start (StartFetchUserProfile (user_id u)) p
           | None => p
           end in
  setLoading false p.

(** The [.catch] handler of the initial [getSession]. *)
Definition onSessionError (error : JsError) (p : Mounted) : Mounted :=
  let p := effect (console_error "Session initialization error:" error) p in
  let p := if negb (String.eqb (message error) "")
              && includes "Refresh Token Not Found" (message error)
           then start StartSignOut p
           else p in
  setLoading false p.

(** [supabase.auth.getSession().then(onSession).catch(onSessionError)] *)
Definition getInitialSession (p : Mounted) : Mounted :=
  match await CallGetSession auth_getSession (provider p) with
  | Returned session st =>
      onSession session {| provider := st; loading := loading p; started := started p |}
  | Threw error st =>
      onSessionError error {| provider := st; loading := loading p; started := started p |}
  | OutOfFuel st => {| provider := st; loading := loading p; started := started p |}
  end.

(** The callback handed to [onAuthStateChange]. *)
Definition onAuthStateChange (session : option Session) (p : Mounted) : Mounted :=
  let p := effect (setUser (user_of session)) p in
  match user_of session with
  | Some u => start (StartFetchUserProfile (user_id u)) p
  | None => effect (setUserProfile None) p
  end.

(** A started call, run to its end. *)
Definition run_task (fuel : nat) (t : Task) : @M W unit :=
  match t with
  | StartFetchUserProfile userId => fetchUserProfile chaptersData fuel userId
  | StartSignOut => signOut
  end.

(** Worlds in which the self-heal always goes through and the row is never
    found afterwards: [Inv] is closed under one round of self-heal. *)
Definition never_found (userId : string) (Inv : W -> Prop) : Prop :=
  forall w, Inv w -> exists u w', healed chaptersData userId u w w' /\ Inv w'.

End Mount.

(** A store that accepts every insert and never shows a row: what the
    component sees when it may insert rows it is not allowed to read. The
    world counts the accepted inserts. *)
Module Blind.

Definition someone : AuthUser :=
  {| user_id := "u1"; user_email := VStr "ann@example.org"; user_metadata := None |}.

Definition client : Supabase nat := {|
  from_select := fun _ n =>
    (Resolved {| sel_data := None; sel_error := Some Mem.not_found |}, n);
  from_insert := fun _ n => (Resolved None, S n);
  from_update := fun _ _ n => (Resolved None, n);
  auth_getSession := fun n => (Resolved (Some {| session_user := someone |}), n);
  auth_getUser := fun n => (Resolved (Some someone), n);
  auth_signUp := fun _ _ _ n =>
    (Resolved {| su_user := Some someone; su_error := None |}, n);
  auth_signInWithPassword := fun _ _ n => (Resolved None, n);
  auth_signOut := fun n => (Resolved None, n)
|}.

End Blind.

(** An Auth Service whose stored refresh token is gone: every
    [getSession] rejects. The other calls are never reached through it. *)
Module Expired.

Definition token_error : JsError :=
  {| code := "refresh_token_not_found";
     message := "Invalid Refresh Token: Refresh Token Not Found" |}.

Definition client : Supabase unit := {|
  from_select := fun _ w =>
    (Resolved {| sel_data := None; sel_error := Some Mem.network_error |}, w);
  from_insert := fun _ w => (Resolved (Some Mem.network_error), w);
  from_update := fun _ _ w => (Resolved (Some Mem.network_error), w);
  auth_getSession := fun w => (Rejected token_error, w);
  auth_getUser := fun w => (Resolved None, w);
  auth_signUp := fun _ _ _ w =>
    (Resolved {| su_user := None; su_error := Some token_error |}, w);
  auth_signInWithPassword := fun _ _ w => (Resolved (Some token_error), w);
  auth_signOut := fun w => (Resolved None, w)
|}.

End Expired.

(** Further concrete inputs. *)
Module Cases.

Import Examples.

Definition bob : AuthUser :=
  {| user_id := "u2"; user_email := VStr "bob@example.org"; user_metadata := None |}.

(** An avatar change, as [updateUserProfile] would send it. *)
Definition new_avatar : Obj := object [("avatar_id", VNum 3)].

(** Ann's played row after the avatar change. *)
Definition played_with_avatar : Obj := new_avatar ∪ played_row.

(** The row [signUp] sends for Ann, and the row the database keeps. *)
Definition ann_account : AuthUser :=
  Mem.account "ann@example.org" (signUp_options new_user_data).

Definition sent_row : Obj :=
  signUp_profile catalog "ann@example.org" new_user_data ann_account.

Definition kept_row : Obj := sent_row ∪ defaults.

Definition signed_up : Mem.World :=
  world_of {[ "ann@example.org" := kept_row ]} (Some ann_account) true.

(** The provider showing Ann's profile, mounted and idle. *)
Definition showing_ann (up : bool) : @Mounted Mem.World :=
  {| provider := Mem.start (Some ann) (Some played_row) (with_row played_row up);
     loading := false; started := [] |}.

(** Ann signed in with her played row cached, the store up. *)
Definition playing : @State Mem.World :=
  Mem.start (Some ann) (Some played_row) (with_row played_row true).

(** A provider that has just mounted over an expired token. *)
Definition just_mounted : @Mounted unit :=
  {| provider := {| user := None; userProfile := None; world := tt; log := [] |};
     loading := true; started := [] |}.

End Cases.

(** ** The function value of one render

    [updateUserStats] closes over the [user] and [userProfile] of the render
    that created it; only the updater handed to [setUserProfile] sees the
    cache as it is when it runs. [updateUserStats_of user0 profile0] is the
    function value of a render that saw [user0] and [profile0], called in
    any later state. [updateUserStats] above is the call through the
    function value of the current render. *)

Section Closures.

Context {W : Type} `{Supabase W} `{Coercions}.

Definition updateUserStats_of (user0 : option AuthUser) (profile0 : option Obj)
           (correct wrong money : Q) : @M W unit := fun st =>
  match user0 with
  | None => Returned tt st
  | Some u =>
    let fields := stats_fields profile0 correct wrong money in
    bind (console_log "[updateUserStats] Updating user:"
            (stats_log_args u profile0 correct wrong money))
      (fun _ =>
    bind (await (CallUpdate (object fields) (user_id u))
                (from_update (object fields) (user_id u)))
      (fun error =>
    bind match error with
         | Some e =>
           bind (console_error "[updateUserStats] Supabase update error:" e)
                (fun _ => throw e)
         | None => ret tt
         end
      (fun _ =>
    bind (setUserProfile_with (merge_stats fields))
      (fun _ => setTimeout (DeferFetchUserProfile (user_id u)) 500)))) st
  end.

End Closures.

(** Proof steps shared by the properties of the remaining operations:
    run one await whose reply is known, and bring a final state to its
    normal form. *)
Ltac exec_with Hcall :=
  unfold try_catch, bind, await; cbn [advance world]; rewrite Hcall; cbn beta iota.

Ltac normal_state :=
  unfold try_catch, bind, ret, throw, setUserProfile_with, setUserProfile, setUser,
    console_error, console_log, setTimeout, emit, advance;
  cbn [user userProfile world log final];
  rewrite <- ?app_assoc; cbn [app].

(** * Properties *)

Section Properties.

Context {W : Type} `{Supabase W} `{Coercions}.
Variable chaptersData : list Chapter.

(** Run one await whose reply is known. *)
Ltac run_with Hcall :=
  unfold try_catch, bind, await; cbn [advance world]; rewrite Hcall; cbn beta iota.

(** Run the state writes and bring the final state to its normal form. *)
Ltac settle :=
  unfold try_catch, bind, ret, throw, setUserProfile_with, setUserProfile, setUser,
    console_error, console_log, setTimeout, emit, advance;
  cbn [user userProfile world log final];
  rewrite <- ?app_assoc; cbn [app].

Lemma fetch_found fuel userId (st : State) data w1 w2 :
  select_found userId data (world st) w1 ->
  backfilled userId data w1 w2 ->
  fetchUserProfile chaptersData (S fuel) userId st
  = Returned tt {| user := user st; userProfile := Some data; world := w2;
                   log := log st ++ found_events userId data |}.
Proof.
  intros (r & Hsel & Herr & Hdata) Hback.
  cbn [fetchUserProfile]. run_with Hsel. rewrite Herr, Hdata.
  unfold backfilled in Hback. unfold found_events.
  fold (backfill_fields data).
  destruct (nullish (get data "total_coins")).
  - destruct Hback as [r' Hupd]. cbn [advance world]. rewrite Hupd. now settle.
  - subst w2. now settle.
Qed.

(** The whole body of [fetchUserProfile] sits in [try]/[catch], and the
    handler only logs. *)
Lemma fetch_never_throws fuel userId (st : State) e st' :
  fetchUserProfile chaptersData fuel userId st <> Threw e st'.
Proof.
  destruct fuel as [|fuel]; cbn [fetchUserProfile]; [discriminate|].
  unfold try_catch.
  match goal with |- context [match ?b with _ => _ end] => destruct b end;
    unfold console_error; discriminate.
Qed.

Lemma fetch_heal fuel userId (st : State) u w' :
  healed chaptersData userId u (world st) w' ->
  fetchUserProfile chaptersData (S fuel) userId st
  = fetchUserProfile chaptersData fuel userId
      {| user := user st; userProfile := userProfile st; world := w';
         log := log st ++ heal_events chaptersData userId u |}.
Proof.
  intros (w1 & w2 & (r & e & Hsel & Herr & Hcode) & Huser & Hins).
  cbn [fetchUserProfile]. run_with Hsel. rewrite Herr, Hcode, String.eqb_refl.
  run_with Huser. run_with Hins. settle. unfold heal_events.
  match goal with |- context [fetchUserProfile _ _ _ ?s] => generalize s end.
  intros st3. destruct (fetchUserProfile chaptersData fuel userId st3) eqn:E;
    try reflexivity.
  now apply fetch_never_throws in E.
Qed.

(** The run of a failing call: the client calls, then the console line. *)
Lemma fetch_failure userId w e evs :
  fetch_fails chaptersData userId w e evs ->
  forall st : State, world st = w ->
  exists w', forall fuel, length evs <= fuel ->
    fetchUserProfile chaptersData fuel userId st
    = Returned tt {| user := user st; userProfile := userProfile st; world := w';
                     log := log st ++ evs
                            ++ [ConsoleError "Error fetching user profile:" e] |}.
Proof.
  induction 1 as [w w' e Hsel | w w' r e Hsel Herr Hcode | w w' r Hsel Herr Hdata
                 | w w1 w2 data e (r & Hsel & Herr & Hdata) Hnull Hupd
                 | w w1 w2 e (r & e0 & Hsel & Herr & Hcode) Huser
                 | w w1 w2 w3 u e (r & e0 & Hsel & Herr & Hcode) Huser Hins
                 | w w1 w2 w3 u e (r & e0 & Hsel & Herr & Hcode) Huser Hins
                 | w w' u e evs Hheal Hfail IH];
    intros st <-.
  - exists w'. intros [|fuel] Hfuel; [cbn in Hfuel; lia|].
    cbn [fetchUserProfile]. run_with Hsel. now settle.
  - exists w'. intros [|fuel] Hfuel; [cbn in Hfuel; lia|].
    cbn [fetchUserProfile]. run_with Hsel. rewrite Herr.
    apply String.eqb_neq in Hcode. rewrite Hcode. now settle.
  - exists w'. intros [|fuel] Hfuel; [cbn in Hfuel; lia|].
    cbn [fetchUserProfile]. run_with Hsel. rewrite Herr, Hdata. now settle.
  - exists w2. intros [|fuel] Hfuel; [cbn in Hfuel; lia|].
    cbn [fetchUserProfile]. run_with Hsel. rewrite Herr, Hdata, Hnull.
    fold (backfill_fields data). run_with Hupd. now settle.
  - exists w2. intros [|fuel] Hfuel; [cbn in Hfuel; lia|].
    cbn [fetchUserProfile]. run_with Hsel. rewrite Herr, Hcode, String.eqb_refl.
    run_with Huser. now settle.
  - exists w3. intros [|fuel] Hfuel; [cbn in Hfuel; lia|].
    cbn [fetchUserProfile]. run_with Hsel. rewrite Herr, Hcode, String.eqb_refl.
    run_with Huser. run_with Hins. now settle.
  - exists w3. intros [|fuel] Hfuel; [cbn in Hfuel; lia|].
    cbn [fetchUserProfile]. run_with Hsel. rewrite Herr, Hcode, String.eqb_refl.
    run_with Huser. run_with Hins. now settle.
  - destruct (IH {| user := user st; userProfile := userProfile st; world := w';
                    log := log st ++ heal_events chaptersData userId u |} eq_refl)
      as [w'' Hrun].
    exists w''. intros [|fuel] Hfuel; [cbn in Hfuel; lia|].
    rewrite (fetch_heal _ _ _ _ _ Hheal), Hrun.
    + cbn [user userProfile log]. now rewrite <- app_assoc.
    + rewrite length_app in Hfuel. cbn in Hfuel. lia.
Qed.

Lemma fetch_fails_calls userId w e evs :
  fetch_fails chaptersData userId w e evs -> forallb is_call evs = true.
Proof.
  induction 1; try reflexivity.
  rewrite forallb_app. now rewrite IHfetch_fails.
Qed.

(** *** The log only grows *)

Lemma extends_ret {A} (a : A) : extends (@ret W A a).
Proof. intros st. exists []. cbn. now rewrite app_nil_r. Qed.

Lemma extends_throw {A} e : extends (@throw W A e).
Proof. intros st. exists []. cbn. now rewrite app_nil_r. Qed.

Lemma extends_await {A} ev (call : W -> Reply A * W) : extends (await ev call).
Proof.
  intros st. exists [ev]. unfold await.
  now destruct (call (world st)) as [[a|e] w].
Qed.

Lemma extends_bind {A B} (m : @M W A) (k : A -> @M W B) :
  extends m -> (forall a, extends (k a)) -> extends (bind m k).
Proof.
  intros Hm Hk st. unfold bind. destruct (Hm st) as [evs Hevs].
  destruct (m st) as [a st'|e st'|st']; cbn [final] in *; eauto.
  destruct (Hk a st') as [evs' Hevs']. exists (evs ++ evs').
  now rewrite Hevs', Hevs, app_assoc.
Qed.

Lemma extends_try_catch {A} (m : @M W A) (h : JsError -> @M W A) :
  extends m -> (forall e, extends (h e)) -> extends (try_catch m h).
Proof.
  intros Hm Hh st. unfold try_catch. destruct (Hm st) as [evs Hevs].
  destruct (m st) as [a st'|e st'|st']; cbn [final] in *; eauto.
  destruct (Hh e st') as [evs' Hevs']. exists (evs ++ evs').
  now rewrite Hevs', Hevs, app_assoc.
Qed.

Lemma extends_emit {A} (a : A) ev : extends (fun st : @State W => Returned a (emit ev st)).
Proof. intros st. now exists [ev]. Qed.

Lemma extends_setUserProfile p : extends (@setUserProfile W p).
Proof. intros st. now exists [SetUserProfile p]. Qed.

Lemma extends_setUser u : extends (@setUser W u).
Proof. intros st. now exists [SetUser u]. Qed.

Lemma extends_fetch fuel userId : extends (fetchUserProfile chaptersData fuel userId).
Proof.
  induction fuel as [|fuel IH]; cbn [fetchUserProfile].
  - intros st. exists []. cbn. now rewrite app_nil_r.
  - apply extends_try_catch; [|intros e; apply extends_emit].
    apply extends_bind; [apply extends_await|]. intros r.
    destruct (sel_error r) as [error|].
    + destruct (String.eqb (code error) "PGRST116"); [|apply extends_throw].
      apply extends_bind; [apply extends_await|]. intros [u|]; [|apply extends_ret].
      apply extends_bind; [apply extends_await|].
      intros [e|]; [apply extends_throw|apply IH].
    + destruct (sel_data r) as [data|]; [|apply extends_throw].
      apply extends_bind; [|intros _; apply extends_setUserProfile].
      destruct (nullish (get data "total_coins")); [|apply extends_ret].
      apply extends_bind; [apply extends_await|]. intros _. apply extends_ret.
Qed.

(** *** Reading fields of the rows the component builds *)

Lemma find_first_chapter (lvl : Q) (p : Chapter -> bool) (cs : list Chapter) :
  (forall c, p c = true <-> first_of_level lvl c) ->
  match List.find p cs with
  | Some c => first_chapter_of lvl cs c
  | None => no_chapter_of lvl cs
  end.
Proof.
  intros Hp. induction cs as [|c cs IH]; cbn [List.find].
  - intros c [].
  - destruct (p c) eqn:Hc.
    + exists [], cs. split; [reflexivity|]. split; [now apply Hp|]. intros x [].
    + assert (Hnot : ~ first_of_level lvl c)
        by (intros Hl; apply Hp in Hl; congruence).
      destruct (List.find p cs) as [c'|].
      * destruct IH as (pre & post & -> & Hl & Hpre).
        exists (c :: pre), post. split; [reflexivity|]. split; [exact Hl|].
        intros x [<-|Hx]; [exact Hnot|now apply Hpre].
      * intros x [<-|Hx]; [exact Hnot|now apply IH].
Qed.

Lemma level_one_test (c : Chapter) :
  Qeq_bool (chapter_class_level c) 1 && Qeq_bool (chapter_order c) 1 = true
  <-> first_of_level 1 c.
Proof.
  unfold first_of_level. rewrite andb_true_iff, !Qeq_bool_iff. reflexivity.
Qed.

Lemma default_profile_chapters u :
  (exists c, first_chapter_of 1 chaptersData c
             /\ get (default_profile chaptersData u) "unlocked_chapters"
                = VArr [VStr (chapter_id c)])
  \/ (no_chapter_of 1 chaptersData
      /\ get (default_profile chaptersData u) "unlocked_chapters"
         = VArr [VStr "class9_ch1"]).
Proof.
  unfold default_profile.
  pose proof (find_first_chapter 1 _ chaptersData level_one_test) as Hfind.
  destruct (List.find _ chaptersData) as [c|].
  - left. exists c. split; [exact Hfind|reflexivity].
  - right. split; [exact Hfind|reflexivity].
Qed.

(** The row of the self-heal always unlocks exactly one chapter. *)
Lemma default_profile_unlocks_one u :
  exists k, get (default_profile chaptersData u) "unlocked_chapters" = VArr [VStr k].
Proof.
  destruct (default_profile_chapters u) as [(c & _ & Hc)|[_ Hc]]; eauto.
Qed.

(** *** fetchUserProfile *)

(** Whatever the client answers: a call that writes a [console.error] line
    has left the cached profile alone, and no call touches the identity. *)
Lemma fetch_error_keeps_cache fuel : forall userId (st : State),
  exists evs,
    log (final (fetchUserProfile chaptersData fuel userId st)) = log st ++ evs
    /\ user (final (fetchUserProfile chaptersData fuel userId st)) = user st
    /\ (existsb is_console_error evs = true ->
        userProfile (final (fetchUserProfile chaptersData fuel userId st))
        = userProfile st).
Proof.
  induction fuel as [|fuel IH]; intros userId st.
  { exists []. cbn. rewrite app_nil_r. auto. }
  cbn [fetchUserProfile]. unfold try_catch, bind, await.
  destruct (from_select userId (world st)) as [[r|e] w1]; cbn beta iota;
    [|settle; eexists; split; [reflexivity|auto]].
  destruct (sel_error r) as [error|].
  - destruct (String.eqb (code error) "PGRST116");
      [|settle; eexists; split; [reflexivity|auto]].
    cbn [advance world].
    destruct (auth_getUser w1) as [[[u|]|e] w2]; cbn beta iota;
      [|settle; eexists; split; [reflexivity|auto]..].
    cbn [advance world].
    destruct (from_insert (default_profile chaptersData u) w2) as [[[e|]|e] w3];
      cbn beta iota; [settle; eexists; split; [reflexivity|auto]| |
                      settle; eexists; split; [reflexivity|auto]].
    match goal with |- context [fetchUserProfile _ _ _ ?s] =>
      destruct (IH userId s) as (evs & Hlog & Huser & Hcache);
      pose proof (fetch_never_throws fuel userId s) as Hthrow;
      destruct (fetchUserProfile chaptersData fuel userId s) as [[] st'|e st'|st']
    end; [| now contradiction (Hthrow e st') |];
      cbn [final] in *; unfold advance in *; cbn [log user userProfile] in *;
      rewrite <- !app_assoc in Hlog; cbn [app] in Hlog;
      (eexists; split; [exact Hlog|split; [exact Huser|]]);
      cbn [existsb is_console_error orb]; exact Hcache.
  - destruct (sel_data r) as [data|]; [|settle; eexists; split; [reflexivity|auto]].
    destruct (nullish (get data "total_coins")).
    + cbn [advance world].
      destruct (from_update _ userId w1) as [[r'|e] w2]; cbn beta iota;
        settle; eexists; (split; [reflexivity|]); (split; [reflexivity|]);
        cbn [existsb is_console_error orb]; try discriminate; auto.
    + settle. eexists. split; [reflexivity|]. split; [reflexivity|].
      cbn [existsb is_console_error orb]. discriminate.
Qed.

(** C10. In the create-on-missing branch, when the Auth Service reports no
    current user, the call returns normally after the select and the
    [getUser] call: no insert, no second select, no write to the cached
    profile, nothing on the console. *)
Theorem no_current_user_no_profile fuel userId (st : State) w1 w2 :
  select_not_found userId (world st) w1 ->
  auth_getUser w1 = (Resolved None, w2) ->
  fetchUserProfile chaptersData (S fuel) userId st
  = Returned tt {| user := user st; userProfile := userProfile st; world := w2;
                   log := log st ++ [CallSelect userId; CallGetUser] |}.
Proof.
  intros (r & e & Hsel & Herr & Hcode) Huser.
  cbn [fetchUserProfile]. run_with Hsel. rewrite Herr, Hcode, String.eqb_refl.
  run_with Huser. now settle.
Qed.

(** C1 (amended). When the row is missing, the Auth Service names a current
    user, the insert of the default row is accepted, the re-fetch finds a
    row and its backfill (if any) resolves, then two rounds suffice: the
    call inserts exactly one row, the default row of that user (class level
    1, 100 coins, zero counters, avatar 1, the first level-1 chapter of the
    catalog or else [class9_ch1]), and the cached profile is the row the
    re-fetch read back. *)
Theorem missing_profile_created_and_read_back fuel userId (st : State) u data w1 w2 w3 :
  healed chaptersData userId u (world st) w1 ->
  select_found userId data w1 w2 ->
  backfilled userId data w2 w3 ->
  let row := default_profile chaptersData u in
  let evs := heal_events chaptersData userId u ++ found_events userId data in
  fetchUserProfile chaptersData (S (S fuel)) userId st
  = Returned tt {| user := user st; userProfile := Some data; world := w3;
                   log := log st ++ evs |}
  /\ List.filter is_insert evs = [CallInsert row]
  /\ get row "id" = VStr (user_id u)
  /\ get row "class_level" = VNum 1
  /\ get row "total_coins" = VNum 100
  /\ get row "total_correct" = VNum 0
  /\ get row "total_wrong" = VNum 0
  /\ get row "avatar_id" = VNum 1
  /\ ((exists c, first_chapter_of 1 chaptersData c
                 /\ get row "unlocked_chapters" = VArr [VStr (chapter_id c)])
      \/ (no_chapter_of 1 chaptersData
          /\ get row "unlocked_chapters" = VArr [VStr "class9_ch1"])).
Proof.
  intros Hheal Hfound Hback row evs. split; [|split].
  - rewrite (fetch_heal _ _ _ _ _ Hheal).
    rewrite (fetch_found _ _ _ data w2 w3); [|exact Hfound|exact Hback].
    cbn [user userProfile log]. now rewrite <- app_assoc.
  - subst evs. unfold heal_events, found_events. cbn [app List.filter is_insert].
    destruct (nullish (get data "total_coins")); reflexivity.
  - repeat (split; [reflexivity|]). apply default_profile_chapters.
Qed.

(** C5 (amended). When the fetched row has no [total_coins] and a [money]
    balance [q] (75 in the scenario), the reconciled view has [total_coins]
    [q], the backfill update [{ total_coins: q }] is issued before the
    profile is cached, and what is cached is the row as fetched: its
    [total_coins] is still missing. *)
Theorem null_coins_backfilled_cache_raw fuel userId (st : State) data q w1 w2 r :
  select_found userId data (world st) w1 ->
  nullish (get data "total_coins") = true ->
  get data "money" = VNum q ->
  from_update (object [("total_coins", VNum q)]) userId w1 = (Resolved r, w2) ->
  get (updatedData data) "total_coins" = VNum q
  /\ fetchUserProfile chaptersData (S fuel) userId st
     = Returned tt {| user := user st; userProfile := Some data; world := w2;
                      log := log st ++ [CallSelect userId;
                                        CallUpdate (object [("total_coins", VNum q)]) userId;
                                        SetUserProfile (Some data)] |}
  /\ nullish (opt_get (Some data) "total_coins") = true.
Proof.
  intros Hfound Hnull Hmoney Hupd.
  assert (Hview : get (updatedData data) "total_coins" = VNum q).
  { unfold updatedData, spread, get at 1.
    erewrite lookup_union_Some_l; [|reflexivity].
    cbn [default]. unfold js_coalesce. now rewrite Hnull, Hmoney. }
  split; [exact Hview|]. split; [|exact Hnull].
  rewrite (fetch_found _ _ _ data w1 w2 Hfound).
  - unfold found_events, backfill_fields. now rewrite Hnull, Hview.
  - unfold backfilled, backfill_fields. rewrite Hnull, Hview. now exists r.
Qed.

(** C6. When the select finds a row, whatever the call writes to the cached
    profile is that row as fetched, not [updatedData]: the call ends with the
    cache set to the fetched row as soon as the backfill (if the row needs
    one) resolves, and it writes nothing else to the cache in any case. *)
Theorem cache_is_fetched_row fuel userId (st : State) data w1 :
  select_found userId data (world st) w1 ->
  (forall w2, backfilled userId data w1 w2 ->
     fetchUserProfile chaptersData (S fuel) userId st
     = Returned tt {| user := user st; userProfile := Some data; world := w2;
                      log := log st ++ found_events userId data |})
  /\ (exists evs,
        log (final (fetchUserProfile chaptersData (S fuel) userId st)) = log st ++ evs
        /\ forall p, In (SetUserProfile p) evs -> p = Some data).
Proof.
  intros Hfound. split; [intros w2; now apply fetch_found|].
  destruct (nullish (get data "total_coins")) eqn:Hnull.
  - destruct (from_update (backfill_fields data) userId w1) as [[r|e] w2] eqn:Hupd.
    + rewrite (fetch_found _ _ _ data w1 w2 Hfound);
        [|unfold backfilled; rewrite Hnull; now exists r].
      eexists. split; [reflexivity|]. unfold found_events. rewrite Hnull.
      intros p [Hp|[Hp|[Hp|[]]]]; congruence.
    + destruct Hfound as (r & Hsel & Herr & Hdata).
      cbn [fetchUserProfile]. run_with Hsel. rewrite Herr, Hdata, Hnull.
      fold (backfill_fields data). run_with Hupd. settle.
      eexists. split; [reflexivity|].
      intros p [Hp|[Hp|[Hp|[]]]]; congruence.
  - rewrite (fetch_found _ _ _ data w1 w1 Hfound);
      [|unfold backfilled; now rewrite Hnull].
    eexists. split; [reflexivity|]. unfold found_events. rewrite Hnull.
    intros p [Hp|[Hp|[]]]; congruence.
Qed.

(** C9. A call that runs into an error (a rejected or failed select other
    than not-found, a failed [getUser], insert or backfill, or any of these
    during the re-fetch after a self-heal) never throws: it returns normally,
    having made only client calls before one [console.error] line, and the
    cached profile and the identity are as they were. *)
Theorem fetch_errors_are_logged_not_thrown userId (st : State) e evs :
  fetch_fails chaptersData userId (world st) e evs ->
  (forall fuel e' st', fetchUserProfile chaptersData fuel userId st <> Threw e' st')
  /\ forallb is_call evs = true
  /\ exists w', forall fuel, length evs <= fuel ->
       fetchUserProfile chaptersData fuel userId st
       = Returned tt {| user := user st; userProfile := userProfile st; world := w';
                        log := log st ++ evs
                               ++ [ConsoleError "Error fetching user profile:" e] |}.
Proof.
  intros Hfail. split; [|split].
  - intros fuel e' st'. apply fetch_never_throws.
  - exact (fetch_fails_calls _ _ _ _ Hfail).
  - exact (fetch_failure _ _ _ _ Hfail st eq_refl).
Qed.

(** *** signOut *)

(** C4. Whatever the Auth Service answers (no session, a session and a
    successful sign-out, a sign-out that reports an error, or a call that
    rejects), [signOut] returns normally with the identity and the cached
    profile both cleared. *)
Theorem signOut_always_clears (st : State) :
  exists st', signOut st = Returned tt st'
              /\ user st' = None /\ userProfile st' = None.
Proof.
  unfold signOut, try_catch, bind, await.
  destruct (auth_getSession (world st)) as [[[s|]|e] w1]; cbn beta iota.
  - cbn [advance world].
    destruct (auth_signOut w1) as [[[e|]|e] w2]; cbn beta iota;
      settle; eexists; split; reflexivity || (split; reflexivity).
  - settle. eexists; split; [reflexivity|split; reflexivity].
  - settle. eexists; split; [reflexivity|split; reflexivity].
Qed.

(** *** updateUserStats *)

(** The run of [updateUserStats] with an identity set, by the reply of its
    write. *)
Lemma stats_run (st : State) u correct wrong money :
  user st = Some u ->
  let fields := stats_fields (userProfile st) correct wrong money in
  let line := ConsoleLog "[updateUserStats] Updating user:"
                (stats_log_args u (userProfile st) correct wrong money) in
  let call := CallUpdate (object fields) (user_id u) in
  match from_update (object fields) (user_id u) (world st) with
  | (Resolved None, w') =>
      updateUserStats correct wrong money st
      = Returned tt {| user := user st;
                       userProfile := merge_stats fields (userProfile st);
                       world := w';
                       log := log st ++ [line; call;
                                SetUserProfile (merge_stats fields (userProfile st));
                                SetTimeout (DeferFetchUserProfile (user_id u)) 500] |}
  | (Resolved (Some e), w') =>
      updateUserStats correct wrong money st
      = Threw e {| user := user st; userProfile := userProfile st; world := w';
                   log := log st ++ [line; call;
                            ConsoleError "[updateUserStats] Supabase update error:" e] |}
  | (Rejected e, w') =>
      updateUserStats correct wrong money st
      = Threw e {| user := user st; userProfile := userProfile st; world := w';
                   log := log st ++ [line; call] |}
  end.
Proof.
  intros Hu fields line call.
  destruct (from_update (object fields) (user_id u) (world st)) as [[[e|]|e] w'] eqn:Hupd;
    unfold updateUserStats; rewrite Hu; fold fields;
    unfold bind, console_log, await; cbn [emit advance world]; rewrite Hupd;
    settle; now rewrite Hu.
Qed.

(** C8. With an identity set, when the write of [updateUserStats] reports
    an error or rejects, that error is thrown to the caller, the cached
    profile is untouched, and the call neither writes the cache nor sets a
    timer. The optimistic cache update and the 500 ms re-fetch timer appear
    only when the write succeeded, and then both do. *)
Theorem stats_write_failure_propagates (st : State) u correct wrong money :
  user st = Some u ->
  let fields := stats_fields (userProfile st) correct wrong money in
  let reply := fst (from_update (object fields) (user_id u) (world st)) in
  let o := updateUserStats correct wrong money st in
  exists evs,
    log (final o) = log st ++ evs
    /\ (forall e, reply = Resolved (Some e) \/ reply = Rejected e ->
          (exists st', o = Threw e st')
          /\ userProfile (final o) = userProfile st
          /\ forallb (fun ev => negb (is_optimistic ev)) evs = true)
    /\ (existsb is_optimistic evs = true -> reply = Resolved None)
    /\ (reply = Resolved None ->
          o = Returned tt (final o)
          /\ userProfile (final o) = merge_stats fields (userProfile st)
          /\ In (SetUserProfile (merge_stats fields (userProfile st))) evs
          /\ In (SetTimeout (DeferFetchUserProfile (user_id u)) 500) evs).
Proof.
  intros Hu fields reply o.
  pose proof (stats_run st u correct wrong money Hu) as Hrun. cbn zeta in Hrun.
  fold fields in Hrun. subst reply o.
  destruct (from_update (object fields) (user_id u) (world st)) as [[[e|]|e] w'];
    rewrite Hrun; cbn [fst final log userProfile]; eexists;
    (split; [reflexivity|]); cbn [forallb existsb is_optimistic negb andb orb].
  - split; [|split]; [|discriminate|discriminate].
    intros e' [He|He]; inversion He; subst. eauto.
  - split; [|split]; [intros e' [He|He]; discriminate|reflexivity|].
    intros _. cbn [In]. repeat split; [do 2 right|do 3 right]; now left.
  - split; [|split]; [|discriminate|discriminate].
    intros e' [He|He]; inversion He; subst. eauto.
Qed.

Lemma or_zero_number profile k :
  number_or_missing profile k ->
  exists x, js_or (opt_get profile k) (VNum 0) = VNum x /\ (x == old_total profile k)%Q.
Proof.
  unfold number_or_missing, old_total, number_of, js_or.
  destruct (opt_get profile k) as [| |b|q|s|l]; try contradiction; intros _;
    cbn [truthy default]; try (exists 0%Q; split; reflexivity).
  destruct (Qeq_bool q 0) eqn:Hq; cbn [negb].
  - exists 0%Q. split; [reflexivity|]. apply Qeq_bool_iff in Hq. now symmetry.
  - exists q. split; reflexivity.
Qed.

Lemma current_coins_number profile :
  number_or_missing profile "total_coins" ->
  number_or_missing profile "money" ->
  exists x, currentCoins profile = VNum x /\ (x == old_coins_if_falsy profile)%Q.
Proof.
  intros Hcoins Hmoney. unfold currentCoins, old_coins_if_falsy.
  destruct (or_zero_number _ _ Hmoney) as (x & Hx & Hxq).
  unfold number_or_missing, number_of in Hcoins |- *.
  destruct (opt_get profile "total_coins") as [| |b|q|s|l]; try contradiction;
    try (exists x; split; [exact Hx|exact Hxq]).
  unfold js_or at 2. cbn [truthy].
  destruct (Qeq_bool q 0) eqn:Hq; cbn [negb].
  - exists x. split; [exact Hx|exact Hxq].
  - exists q. split; [|reflexivity].
    unfold js_or. cbn [truthy]. now rewrite Hq.
Qed.

(** The JavaScript sum of a number with the value of [y] and [n], when the
    sum of [y] and [n] is finite. *)
Lemma js_add_number x y n s :
  (x == y)%Q ->
  number_plus y n = Some s ->
  exists s', js_add (VNum x) n = VNum s' /\ (s' == s)%Q.
Proof.
  intros Hxy Hsum. cbn [js_add].
  pose proof (number_plus_proper x y n n Hxy (Qeq_refl n)) as Hsame.
  rewrite Hsum in Hsame. destruct (number_plus x n) as [s'|]; [|contradiction].
  exists s'. split; [reflexivity|exact Hsame].
Qed.

(** The payload of [updateUserStats] on a profile whose counters and
    balances are numbers or missing, when its three sums are finite. *)
Lemma stats_payload_sums profile correct wrong money sc sw sm :
  stats_typed profile ->
  number_plus (old_total profile "total_correct") correct = Some sc ->
  number_plus (old_total profile "total_wrong") wrong = Some sw ->
  number_plus (old_coins_if_falsy profile) money = Some sm ->
  exists nc nw,
    stats_fields profile correct wrong money
    = [("total_correct", VNum nc); ("total_wrong", VNum nw);
       ("total_coins", VNum (inject_Z (Qfloor sm)));
       ("money", VNum (inject_Z (Qfloor sm)));
       ("total_correct_answers", VNum nc)]
    /\ (nc == sc)%Q /\ (nw == sw)%Q.
Proof.
  intros (Hc & Hw & Hcoins & Hmoney) Hsc Hsw Hsm.
  destruct (or_zero_number _ _ Hc) as (xc & Hxc & Hxcq).
  destruct (or_zero_number _ _ Hw) as (xw & Hxw & Hxwq).
  destruct (current_coins_number _ Hcoins Hmoney) as (xm & Hxm & Hxmq).
  destruct (js_add_number xc _ correct sc Hxcq Hsc) as (nc & Hnc & Hncq).
  destruct (js_add_number xw _ wrong sw Hxwq Hsw) as (nw & Hnw & Hnwq).
  destruct (js_add_number xm _ money sm Hxmq Hsm) as (nm & Hnm & Hnmq).
  exists nc, nw.
  unfold stats_fields, newTotalCorrect, newTotalWrong, newTotalCoins.
  rewrite Hxc, Hxw, Hxm, Hnc, Hnw, Hnm. cbn [math_floor].
  rewrite (Qfloor_comp _ _ Hnmq).
  split; [reflexivity|]. split; [exact Hncq|exact Hnwq].
Qed.

(** C2 (amended). With an identity set and a cached profile whose counters
    and balances are numbers or missing, the write carries
    [total_correct] = old [total_correct] + [correct],
    [total_wrong] = old [total_wrong] + [wrong], and
    [total_coins] = [money] = floor(old balance + [money]), where [+] is
    JavaScript's addition of numbers (the rounded sum [number_plus], taken
    to be finite, not the exact one), a missing field counts as zero, and
    the old balance is [total_coins] unless that is missing or zero, in
    which case it is the legacy [money] field. *)
Theorem stats_totals_written (st : State) u correct wrong money sc sw sm :
  user st = Some u ->
  stats_typed (userProfile st) ->
  number_plus (old_total (userProfile st) "total_correct") correct = Some sc ->
  number_plus (old_total (userProfile st) "total_wrong") wrong = Some sw ->
  number_plus (old_coins_if_falsy (userProfile st)) money = Some sm ->
  exists fields nc nw nm rest,
    log (final (updateUserStats correct wrong money st))
    = log st ++ [ConsoleLog "[updateUserStats] Updating user:"
                   (stats_log_args u (userProfile st) correct wrong money);
                 CallUpdate fields (user_id u)] ++ rest
    /\ get fields "total_correct" = VNum nc
    /\ (nc == sc)%Q
    /\ get fields "total_wrong" = VNum nw
    /\ (nw == sw)%Q
    /\ get fields "total_coins" = VNum nm
    /\ (nm == inject_Z (Qfloor sm))%Q
    /\ get fields "money" = VNum nm.
Proof.
  intros Hu Htyped Hsc Hsw Hsm.
  destruct (stats_payload_sums _ correct wrong money sc sw sm Htyped Hsc Hsw Hsm)
    as (nc & nw & Hfields & Hnc & Hnw).
  exists (object (stats_fields (userProfile st) correct wrong money)),
    nc, nw, (inject_Z (Qfloor sm)).
  pose proof (stats_run st u correct wrong money Hu) as Hrun.
  cbn zeta in Hrun.
  destruct (from_update _ (user_id u) (world st)) as [[[e|]|e] w'];
    rewrite Hrun; cbn [final log]; eexists;
    (split; [reflexivity|]); rewrite Hfields;
    (split; [reflexivity|]); (split; [exact Hnc|]);
    (split; [reflexivity|]); (split; [exact Hnw|]);
    (split; [reflexivity|]); (split; reflexivity).
Qed.

(** *** signUp *)

(** Once the Auth Service has created the user, [signUp] inserts its row
    next, whatever happens afterwards. *)
Lemma signUp_inserts fuel email password userData (st : State) r u w1 :
  auth_signUp email password (signUp_options userData) (world st) = (Resolved r, w1) ->
  su_error r = None ->
  su_user r = Some u ->
  exists rest,
    log (final (signUp chaptersData fuel email password userData st))
    = log st ++ [CallSignUp email password (signUp_options userData);
                 CallInsert (signUp_profile chaptersData email userData u)] ++ rest.
Proof.
  intros Hsu Herr Huser. unfold signUp. cbn zeta. run_with Hsu.
  rewrite Herr, Huser. unfold await. cbn [advance world].
  destruct (from_insert _ w1) as [[[e|]|e] w2]; cbn beta iota.
  - exists []. now settle.
  - match goal with |- context [fetchUserProfile _ _ _ ?s] =>
      destruct (extends_fetch fuel (user_id u) s) as [evs Hevs]
    end.
    exists evs. rewrite Hevs. now settle.
  - exists []. now settle.
Qed.

Lemma find_none_everywhere (p : Chapter -> bool) (cs : list Chapter) :
  (forall c, p c = false) -> List.find p cs = None.
Proof.
  intros Hp. induction cs as [|c cs IH]; [reflexivity|].
  cbn [List.find]. now rewrite Hp.
Qed.

(** In a keyed catalog the lookup of [signUp] returns the chapter of the
    requested level with order 1, when there is one. *)
Lemma keyed_lookup (q lvl : Q) ch :
  (q == lvl)%Q ->
  keyed chaptersData ->
  In ch chaptersData ->
  first_of_level lvl ch ->
  exists c,
    List.find (fun c => strict_eq_num (chapter_class_level c) (VNum q)
                        && Qeq_bool (chapter_order c) 1) chaptersData = Some c
    /\ chapter_id c = chapter_id ch.
Proof.
  intros Hq Hkeyed Hin [Hlvl Hord].
  assert (Htest : forall c,
             strict_eq_num (chapter_class_level c) (VNum q)
             && Qeq_bool (chapter_order c) 1 = true <-> first_of_level lvl c).
  { intros c. unfold first_of_level. cbn [strict_eq_num].
    rewrite andb_true_iff, !Qeq_bool_iff, Hq. reflexivity. }
  pose proof (find_first_chapter lvl _ chaptersData Htest) as Hfind.
  destruct (List.find _ chaptersData) as [c|].
  - exists c. split; [reflexivity|].
    destruct Hfind as (pre & post & Hsplit & [Hclvl Hcord] & _).
    apply Hkeyed.
    + rewrite Hsplit. apply in_or_app. right. now left.
    + exact Hin.
    + now rewrite Hclvl, Hlvl.
    + now rewrite Hcord, Hord.
  - exfalso. apply (Hfind ch Hin). now split.
Qed.

(** C7. [signUp] for class level 9, with a catalog keyed by (class level,
    order) that holds the chapter [class9_ch1] of level 9 and order 1: as
    soon as the Auth Service has created the user, the row inserted has
    [unlocked_chapters] = [["class9_ch1"]], [total_coins] = 0 and
    [money] = 100. *)
Theorem signUp_class9_row fuel email password userData (st : State) q ch r u w1 :
  get userData "class_level" = VNum q ->
  (q == 9)%Q ->
  keyed chaptersData ->
  In ch chaptersData ->
  chapter_id ch = "class9_ch1" ->
  first_of_level 9 ch ->
  auth_signUp email password (signUp_options userData) (world st) = (Resolved r, w1) ->
  su_error r = None ->
  su_user r = Some u ->
  exists row rest,
    log (final (signUp chaptersData fuel email password userData st))
    = log st ++ [CallSignUp email password (signUp_options userData);
                 CallInsert row] ++ rest
    /\ get row "unlocked_chapters" = VArr [VStr "class9_ch1"]
    /\ get row "total_coins" = VNum 0
    /\ get row "money" = VNum 100.
Proof.
  intros Hlevel Hq Hkeyed Hin Hid Hfirst Hsu Herr Huser.
  destruct (signUp_inserts fuel _ _ _ _ _ _ _ Hsu Herr Huser) as [rest Hlog].
  exists (signUp_profile chaptersData email userData u), rest.
  split; [exact Hlog|]. split; [|split; reflexivity].
  destruct (keyed_lookup q 9 ch Hq Hkeyed Hin Hfirst) as (c & Hfind & Hc).
  unfold signUp_profile. rewrite Hlevel, Hfind.
  change (VArr [VStr (chapter_id c)] = VArr [VStr "class9_ch1"]).
  now rewrite Hc, Hid.
Qed.

End Properties.

(** * The provider on concrete inputs *)

Section Concrete.

Import Examples.
#[local] Existing Instance Mem.client.
#[local] Existing Instance Mem.coercions.

Lemma no_current_user_witness :
  select_not_found "u1" (no_rows None) (no_rows None)
  /\ auth_getUser (no_rows None) = (Resolved None, no_rows None)
  /\ fetchUserProfile catalog 1 "u1" (Mem.start None None (no_rows None))
     = Returned tt {| user := None; userProfile := None; world := no_rows None;
                      log := [CallSelect "u1"; CallGetUser] |}.
Proof.
  assert (Hsel : select_not_found "u1" (no_rows None) (no_rows None)).
  { eexists _, _. split; [reflexivity|]. split; reflexivity. }
  split; [exact Hsel|]. split; [reflexivity|].
  exact (no_current_user_no_profile catalog 0 "u1" (Mem.start None None (no_rows None))
           _ _ Hsel eq_refl).
Defined.

(** C1 as written fails when nobody is signed in: the row is missing, yet
    the call inserts nothing, stores nothing and caches nothing. *)
Lemma missing_profile_without_user_creates_nothing :
  select_not_found "u1" (no_rows None) (no_rows None)
  /\ fetchUserProfile catalog 5 "u1" (Mem.start None None (no_rows None))
     = Returned tt {| user := None; userProfile := None; world := no_rows None;
                      log := [CallSelect "u1"; CallGetUser] |}
  /\ ~ (exists row,
          In (CallInsert row)
             (log (final (fetchUserProfile catalog 5 "u1"
                            (Mem.start None None (no_rows None))))))
  /\ Mem.table (world (final (fetchUserProfile catalog 5 "u1"
                                (Mem.start None None (no_rows None))))) !! "u1" = None.
Proof.
  split; [|split; [|split]].
  - eexists _, _. split; [reflexivity|]. split; reflexivity.
  - reflexivity.
  - intros (row & Hin).
    change (In (CallInsert row) [CallSelect "u1"; CallGetUser]) in Hin.
    destruct Hin as [Hin|[Hin|[]]]; discriminate.
  - reflexivity.
Qed.

Lemma missing_profile_created_witness :
  healed catalog "u1" ann (no_rows (Some ann)) (with_row stored_default true)
  /\ select_found "u1" stored_default (with_row stored_default true)
       (with_row stored_default true)
  /\ backfilled "u1" stored_default (with_row stored_default true)
       (with_row stored_default true)
  /\ fetchUserProfile catalog 2 "u1" (Mem.start None None (no_rows (Some ann)))
     = Returned tt {| user := None; userProfile := Some stored_default;
                      world := with_row stored_default true;
                      log := heal_events catalog "u1" ann
                             ++ found_events "u1" stored_default |}
  /\ get (default_profile catalog ann) "unlocked_chapters" = VArr [VStr "class1_ch1"]
  /\ stored_default <> default_profile catalog ann.
Proof.
  assert (Hheal : healed catalog "u1" ann (no_rows (Some ann))
                    (with_row stored_default true)).
  { exists (no_rows (Some ann)), (no_rows (Some ann)). split; [|split].
    - eexists _, _. split; [reflexivity|]. split; reflexivity.
    - reflexivity.
    - vm_compute. reflexivity. }
  assert (Hfound : select_found "u1" stored_default (with_row stored_default true)
                     (with_row stored_default true)).
  { eexists. split; [reflexivity|]. split; reflexivity. }
  assert (Hback : backfilled "u1" stored_default (with_row stored_default true)
                    (with_row stored_default true)) by reflexivity.
  split; [exact Hheal|]. split; [exact Hfound|]. split; [exact Hback|].
  split; [|split].
  - exact (proj1 (missing_profile_created_and_read_back catalog 0 "u1"
                    (Mem.start None None (no_rows (Some ann))) ann stored_default
                    _ _ _ Hheal Hfound Hback)).
  - reflexivity.
  - intros Heq.
    assert (Hcol : stored_default !! "created_by"
                   = default_profile catalog ann !! "created_by") by now rewrite Heq.
    vm_compute in Hcol. discriminate.
Defined.

(** C5 as written fails on a legacy row: the backfill is issued with 75, but
    the cached [total_coins] is the fetched [null], not 75. *)
Lemma legacy_row_cached_without_coins :
  get legacy_row "total_coins" = VNull
  /\ get legacy_row "money" = VNum 75
  /\ fetchUserProfile catalog 1 "u1" (Mem.start (Some ann) None (with_row legacy_row true))
     = Returned tt {| user := Some ann; userProfile := Some legacy_row;
                      world := with_row (object [("total_coins", VNum 75)] ∪ legacy_row) true;
                      log := [CallSelect "u1";
                              CallUpdate (object [("total_coins", VNum 75)]) "u1";
                              SetUserProfile (Some legacy_row)] |}
  /\ opt_get (userProfile (final (fetchUserProfile catalog 1 "u1"
                 (Mem.start (Some ann) None (with_row legacy_row true))))) "total_coins"
     <> VNum 75.
Proof.
  split; [reflexivity|]. split; [reflexivity|]. split.
  - vm_compute. reflexivity.
  - vm_compute. discriminate.
Qed.

Lemma null_coins_backfilled_witness :
  select_found "u1" legacy_row (with_row legacy_row true) (with_row legacy_row true)
  /\ nullish (get legacy_row "total_coins") = true
  /\ get legacy_row "money" = VNum 75
  /\ from_update (object [("total_coins", VNum 75)]) "u1" (with_row legacy_row true)
     = (Resolved None, with_row (object [("total_coins", VNum 75)] ∪ legacy_row) true)
  /\ get (updatedData legacy_row) "total_coins" = VNum 75
  /\ fetchUserProfile catalog 1 "u1" (Mem.start (Some ann) None (with_row legacy_row true))
     = Returned tt {| user := Some ann; userProfile := Some legacy_row;
                      world := with_row (object [("total_coins", VNum 75)] ∪ legacy_row) true;
                      log := [CallSelect "u1";
                              CallUpdate (object [("total_coins", VNum 75)]) "u1";
                              SetUserProfile (Some legacy_row)] |}
  /\ nullish (opt_get (Some legacy_row) "total_coins") = true.
Proof.
  assert (Hfound : select_found "u1" legacy_row (with_row legacy_row true)
                     (with_row legacy_row true)).
  { eexists. split; [reflexivity|]. split; reflexivity. }
  assert (Hupd : from_update (object [("total_coins", VNum 75)]) "u1"
                   (with_row legacy_row true)
                 = (Resolved None,
                    with_row (object [("total_coins", VNum 75)] ∪ legacy_row) true)).
  { vm_compute. reflexivity. }
  split; [exact Hfound|]. split; [reflexivity|]. split; [reflexivity|].
  split; [exact Hupd|].
  exact (null_coins_backfilled_cache_raw catalog 0 "u1"
           (Mem.start (Some ann) None (with_row legacy_row true)) legacy_row 75 _ _ None
           Hfound eq_refl eq_refl Hupd).
Defined.

Lemma cache_is_fetched_row_witness :
  select_found "u1" legacy_row (with_row legacy_row true) (with_row legacy_row true)
  /\ userProfile (final (fetchUserProfile catalog 1 "u1"
                           (Mem.start (Some ann) None (with_row legacy_row true))))
     = Some legacy_row
  /\ legacy_row <> updatedData legacy_row.
Proof.
  assert (Hfound : select_found "u1" legacy_row (with_row legacy_row true)
                     (with_row legacy_row true)).
  { eexists. split; [reflexivity|]. split; reflexivity. }
  split; [exact Hfound|]. split.
  - rewrite (proj1 (cache_is_fetched_row catalog 0 "u1"
                      (Mem.start (Some ann) None (with_row legacy_row true))
                      legacy_row _ Hfound)
               (with_row (object [("total_coins", VNum 75)] ∪ legacy_row) true)).
    + reflexivity.
    + exists None. vm_compute. reflexivity.
  - intros Heq.
    assert (Hcoins : legacy_row !! "total_coins" = updatedData legacy_row !! "total_coins")
      by now rewrite <- Heq.
    vm_compute in Hcoins. discriminate.
Defined.

(** A self-heal for an id that is not the signed-in user's: Ann already has
    a row, so the insert of her default row breaks the primary key. *)
Lemma fetch_errors_witness :
  fetch_fails catalog "ghost" (with_row legacy_row true) Mem.duplicate_key
    (heal_events catalog "ghost" ann)
  /\ exists w', forall fuel, 3 <= fuel ->
       fetchUserProfile catalog fuel "ghost"
         (Mem.start (Some ann) (Some legacy_row) (with_row legacy_row true))
       = Returned tt {| user := Some ann; userProfile := Some legacy_row; world := w';
                        log := heal_events catalog "ghost" ann
                               ++ [ConsoleError "Error fetching user profile:"
                                     Mem.duplicate_key] |}.
Proof.
  assert (Hfail : fetch_fails catalog "ghost" (with_row legacy_row true)
                    Mem.duplicate_key (heal_events catalog "ghost" ann)).
  { eapply fails_insert_error.
    - eexists _, _. split; [reflexivity|]. split; reflexivity.
    - reflexivity.
    - vm_compute. reflexivity. }
  split; [exact Hfail|].
  exact (proj2 (proj2 (fetch_errors_are_logged_not_thrown catalog "ghost"
                         (Mem.start (Some ann) (Some legacy_row) (with_row legacy_row true))
                         _ _ Hfail))).
Defined.

(** The write of [updateUserStats] while the network is down. *)
Lemma stats_write_failure_witness :
  user (Mem.start (Some ann) (Some played_row) (with_row played_row false)) = Some ann
  /\ exists st',
       updateUserStats 2 1 10.7
         (Mem.start (Some ann) (Some played_row) (with_row played_row false))
       = Threw Mem.network_error st'
       /\ userProfile st' = Some played_row.
Proof.
  split; [reflexivity|].
  destruct (stats_write_failure_propagates
              (Mem.start (Some ann) (Some played_row) (with_row played_row false))
              ann 2 1 10.7 eq_refl) as (evs & _ & Hfail & _).
  destruct (Hfail Mem.network_error (or_introl eq_refl)) as ((st' & Hrun) & Hcache & _).
  exists st'. split; [exact Hrun|].
  rewrite Hrun in Hcache. exact Hcache.
Defined.

(** The scenario of the specification: 5 correct, 3 wrong and 50 coins,
    updated by (2, 1, 10.7), are written as 7, 4 and 60. *)
Example stats_scenario :
  exists rest,
    log (final (updateUserStats 2 1 10.7
                  (Mem.start (Some ann) (Some played_row) (with_row played_row true))))
    = [ConsoleLog "[updateUserStats] Updating user:"
         [VStr "u1"; VStr "Total Coins:"; VNum 60; VStr "Correct:"; VNum 7;
          VStr "Wrong:"; VNum 4];
       CallUpdate (object [("total_correct", VNum 7); ("total_wrong", VNum 4);
                           ("total_coins", VNum 60); ("money", VNum 60);
                           ("total_correct_answers", VNum 7)]) "u1"] ++ rest.
Proof.
  eexists. vm_compute. reflexivity.
Qed.

(** C2 as written fails on the row [signUp] creates: [total_coins] is 0, not
    absent, yet the balance written for a gain of 10 is 110, the legacy
    [money] of 100 plus 10, and not floor(0 + 10). *)
Lemma zero_coins_fall_back_to_money :
  number_of (Some fresh_row) "total_coins" = Some 0%Q
  /\ number_of (Some fresh_row) "money" = Some 100%Q
  /\ List.filter is_call
       (log (final (updateUserStats 0 0 10
                      (Mem.start (Some ann) (Some fresh_row) (with_row fresh_row true)))))
     = [CallUpdate (object [("total_correct", VNum 0); ("total_wrong", VNum 0);
                            ("total_coins", VNum 110); ("money", VNum 110);
                            ("total_correct_answers", VNum 0)]) "u1"]
  /\ ~ (110 == inject_Z (Qfloor (old_coins_if_absent (Some fresh_row) + 10)))%Q.
Proof.
  split; [reflexivity|]. split; [reflexivity|]. split.
  - vm_compute. reflexivity.
  - vm_compute. discriminate.
Qed.

Lemma stats_totals_witness :
  user (Mem.start (Some ann) (Some played_row) (with_row played_row true)) = Some ann
  /\ stats_typed (Some played_row)
  /\ number_plus (old_total (Some played_row) "total_correct") 2 = Some 7%Q
  /\ number_plus (old_total (Some played_row) "total_wrong") 1 = Some 4%Q
  /\ number_plus (old_coins_if_falsy (Some played_row)) 10.7 = Some (607 # 10)%Q
  /\ exists fields nc nw nm rest,
       log (final (updateUserStats 2 1 10.7
                     (Mem.start (Some ann) (Some played_row) (with_row played_row true))))
       = [] ++ [ConsoleLog "[updateUserStats] Updating user:"
                  (stats_log_args ann (Some played_row) 2 1 10.7);
                CallUpdate fields "u1"] ++ rest
       /\ get fields "total_correct" = VNum nc
       /\ (nc == 7)%Q
       /\ get fields "total_wrong" = VNum nw
       /\ (nw == 4)%Q
       /\ get fields "total_coins" = VNum nm
       /\ (nm == 60)%Q
       /\ get fields "money" = VNum nm.
Proof.
  assert (Htyped : stats_typed (Some played_row)).
  { repeat split; exact I. }
  assert (Hsc : number_plus (old_total (Some played_row) "total_correct") 2 = Some 7%Q)
    by reflexivity.
  assert (Hsw : number_plus (old_total (Some played_row) "total_wrong") 1 = Some 4%Q)
    by reflexivity.
  assert (Hsm : number_plus (old_coins_if_falsy (Some played_row)) 10.7
                = Some (607 # 10)%Q) by reflexivity.
  split; [reflexivity|]. split; [exact Htyped|].
  split; [exact Hsc|]. split; [exact Hsw|]. split; [exact Hsm|].
  exact (stats_totals_written
           (Mem.start (Some ann) (Some played_row) (with_row played_row true))
           ann 2 1 10.7 _ _ _ eq_refl Htyped Hsc Hsw Hsm).
Defined.

Lemma catalog_keyed : keyed catalog.
Proof.
  intros c c' Hc Hc' Hlevel Horder. cbn [catalog In] in Hc, Hc'.
  destruct Hc as [<-|[<-|[<-|[]]]], Hc' as [<-|[<-|[<-|[]]]];
    try reflexivity; vm_compute in Hlevel, Horder; discriminate.
Qed.

Lemma signUp_class9_witness :
  get new_user_data "class_level" = VNum 9
  /\ (9 == 9)%Q
  /\ keyed catalog
  /\ In class9_ch1 catalog
  /\ first_of_level 9 class9_ch1
  /\ exists row rest,
       log (final (signUp catalog 1 "ann@example.org" "secret" new_user_data
                     (Mem.start None None (no_rows None))))
       = [] ++ [CallSignUp "ann@example.org" "secret" (signUp_options new_user_data);
                CallInsert row] ++ rest
       /\ get row "unlocked_chapters" = VArr [VStr "class9_ch1"]
       /\ get row "total_coins" = VNum 0
       /\ get row "money" = VNum 100.
Proof.
  assert (Hin : In class9_ch1 catalog) by (right; left; reflexivity).
  assert (Hfirst : first_of_level 9 class9_ch1) by (split; reflexivity).
  split; [reflexivity|]. split; [reflexivity|]. split; [exact catalog_keyed|].
  split; [exact Hin|]. split; [exact Hfirst|].
  exact (signUp_class9_row catalog 1 "ann@example.org" "secret" new_user_data
           (Mem.start None None (no_rows None)) 9 class9_ch1 _ _ _
           eq_refl (Qeq_refl 9) catalog_keyed Hin eq_refl Hfirst
           eq_refl eq_refl eq_refl).
Defined.

(** C3 at its failing input. [signUp] without a class level, whatever the
    catalog: the row it inserts has an empty [unlocked_chapters]. *)
Theorem signUp_without_class_level_unlocks_nothing (chapters : list Chapter) (fuel : nat) :
  exists row rest,
    log (final (signUp chapters fuel "ann@example.org" "secret" (object [("name", VStr "Ann")])
                  (Mem.start None None (no_rows None))))
    = [CallSignUp "ann@example.org" "secret" (signUp_options (object [("name", VStr "Ann")]));
       CallInsert row] ++ rest
    /\ get row "unlocked_chapters" = VArr [].
Proof.
  edestruct (signUp_inserts chapters fuel "ann@example.org" "secret" (object [("name", VStr "Ann")])
               (Mem.start None None (no_rows None))) as [rest Hlog];
    [reflexivity..|].
  eexists _, rest. split; [exact Hlog|].
  unfold signUp_profile. rewrite find_none_everywhere; [reflexivity|].
  intros c. reflexivity.
Qed.

End Concrete.

(** * Further properties of the operations *)

Section Operations.

Context {W : Type} `{Supabase W} `{Coercions}.
Variable chaptersData : list Chapter.

(** *** The shape of a fetchUserProfile run *)


(** *** A self-heal that never ends *)

(** X2. Nothing bounds the self-heal: against a store that accepts the
    insert and keeps answering not-found, [fetchUserProfile] does not return
    for any fuel, and by then has inserted one row per round, with the cache
    untouched. *)
Theorem self_heal_unbounded userId (Inv : W -> Prop) :
  never_found chaptersData userId Inv ->
  forall fuel (st : State), Inv (world st) ->
  exists st',
    fetchUserProfile chaptersData fuel userId st = OutOfFuel st'
    /\ length (List.filter is_insert (log st'))
       = (length (List.filter is_insert (log st)) + fuel)%nat
    /\ userProfile st' = userProfile st
    /\ Inv (world st').
Proof.
  intros Hblind. induction fuel as [|fuel IH]; intros st Hinv.
  - exists st. cbn [fetchUserProfile]. repeat split; auto.
  - destruct (Hblind _ Hinv) as (u & w' & Hheal & Hinv').
    rewrite (fetch_heal _ _ _ _ _ _ Hheal).
    match goal with |- context [fetchUserProfile _ _ _ ?s] =>
      destruct (IH s Hinv') as (st' & Hrun & Hcount & Hcache & Hw)
    end.
    exists st'. split; [exact Hrun|]. split; [|split; [exact Hcache|exact Hw]].
    rewrite Hcount. cbn [log]. unfold heal_events.
    rewrite List.filter_app, length_app. cbn. lia.
Qed.

(** *** The reconciled view and the backfill *)

Lemma view_lookup_total_coins data :
  updatedData data !! "total_coins"
  = Some (js_coalesce (js_coalesce (get data "total_coins") (get data "money")) (VNum 100)).
Proof. unfold updatedData, spread. apply lookup_union_Some_l. reflexivity. Qed.

Lemma view_lookup_unlocked_chapters data :
  updatedData data !! "unlocked_chapters"
  = Some (js_or (get data "unlocked_chapters") (VArr [VStr "class9_ch1"])).
Proof. unfold updatedData, spread. apply lookup_union_Some_l. reflexivity. Qed.

Lemma view_lookup_name data :
  updatedData data !! "name"
  = Some (js_or (js_or (get data "name") (get data "full_name")) (VStr "Student")).
Proof. unfold updatedData, spread. apply lookup_union_Some_l. reflexivity. Qed.

Lemma view_total_coins data :
  get (updatedData data) "total_coins"
  = js_coalesce (js_coalesce (get data "total_coins") (get data "money")) (VNum 100).
Proof. unfold get at 1. now rewrite view_lookup_total_coins. Qed.

Lemma view_unlocked_chapters data :
  get (updatedData data) "unlocked_chapters"
  = js_or (get data "unlocked_chapters") (VArr [VStr "class9_ch1"]).
Proof. unfold get at 1. now rewrite view_lookup_unlocked_chapters. Qed.

Lemma view_name data :
  get (updatedData data) "name"
  = js_or (js_or (get data "name") (get data "full_name")) (VStr "Student").
Proof. unfold get at 1. now rewrite view_lookup_name. Qed.

Lemma view_other data k :
  k <> "total_coins" -> k <> "unlocked_chapters" -> k <> "name" ->
  updatedData data !! k = data !! k.
Proof.
  intros H1 H2 H3. unfold updatedData, spread, object.
  apply lookup_union_r. apply not_elem_of_list_to_map_1.
  cbn [fmap list_fmap fst]. rewrite !elem_of_cons, elem_of_nil. intuition congruence.
Qed.

Lemma js_or_truthy a b : truthy b = true -> truthy (js_or a b) = true.
Proof. unfold js_or. destruct (truthy a) eqn:Ha; auto. Qed.

Lemma js_or_of_truthy a b : truthy a = true -> js_or a b = a.
Proof. unfold js_or. now intros ->. Qed.

Lemma js_coalesce_present a b : nullish b = false -> nullish (js_coalesce a b) = false.
Proof. unfold js_coalesce. destruct (nullish a) eqn:Ha; auto. Qed.

Lemma js_coalesce_of_present a b : nullish a = false -> js_coalesce a b = a.
Proof. unfold js_coalesce. now intros ->. Qed.

(** X3. The reconciled view [updatedData] always has a [total_coins] that is
    neither null nor undefined, a truthy [unlocked_chapters] and a truthy
    [name]; it leaves every other field as fetched, and reconciling twice
    changes nothing more. An empty [unlocked_chapters] array and a
    [total_coins] of 0 count as present and are kept. *)
Theorem reconciled_view_is_complete_and_stable (data : Obj) :
  nullish (get (updatedData data) "total_coins") = false
  /\ truthy (get (updatedData data) "unlocked_chapters") = true
  /\ truthy (get (updatedData data) "name") = true
  /\ (forall k, k <> "total_coins" -> k <> "unlocked_chapters" -> k <> "name" ->
        updatedData data !! k = data !! k)
  /\ (forall l, get data "unlocked_chapters" = VArr l ->
        get (updatedData data) "unlocked_chapters" = VArr l)
  /\ (forall q, get data "total_coins" = VNum q ->
        get (updatedData data) "total_coins" = VNum q)
  /\ updatedData (updatedData data) = updatedData data.
Proof.
  assert (Hcoins : nullish (get (updatedData data) "total_coins") = false)
    by (rewrite view_total_coins; now apply js_coalesce_present).
  assert (Hchap : truthy (get (updatedData data) "unlocked_chapters") = true)
    by (rewrite view_unlocked_chapters; now apply js_or_truthy).
  assert (Hname : truthy (get (updatedData data) "name") = true)
    by (rewrite view_name; now apply js_or_truthy).
  split; [exact Hcoins|]. split; [exact Hchap|]. split; [exact Hname|].
  split; [apply view_other|]. split; [|split].
  - intros l Hl. rewrite view_unlocked_chapters, Hl. reflexivity.
  - intros q Hq. rewrite view_total_coins, Hq. reflexivity.
  - apply map_eq. intros k.
    destruct (decide (k = "total_coins")) as [->|H1];
      [|destruct (decide (k = "unlocked_chapters")) as [->|H2];
        [|destruct (decide (k = "name")) as [->|H3]]].
    + rewrite (view_lookup_total_coins (updatedData data)), view_lookup_total_coins.
      f_equal. rewrite <- (view_total_coins data).
      rewrite (js_coalesce_of_present (get (updatedData data) "total_coins"));
        [|exact Hcoins].
      now apply js_coalesce_of_present.
    + rewrite (view_lookup_unlocked_chapters (updatedData data)),
        view_lookup_unlocked_chapters.
      f_equal. rewrite <- (view_unlocked_chapters data). now apply js_or_of_truthy.
    + rewrite (view_lookup_name (updatedData data)), view_lookup_name.
      f_equal. rewrite <- (view_name data).
      rewrite (js_or_of_truthy (get (updatedData data) "name")); [|exact Hname].
      now apply js_or_of_truthy.
    + rewrite !view_other by assumption. reflexivity.
Qed.


(** *** updateUserStats beyond its totals *)

(** X5. [updateUserStats] never touches the identity. Without an identity
    it does nothing at all; with one, the only client call it makes is one
    update of the five stat fields, addressed to the id of that identity. *)
Theorem stats_writes_only_current_user (st : State) correct wrong money :
  let o := updateUserStats correct wrong money st in
  user (final o) = user st
  /\ match user st with
     | None => o = Returned tt st
     | Some u =>
         exists evs,
           log (final o) = log st ++ evs
           /\ List.filter is_call evs
              = [CallUpdate (object (stats_fields (userProfile st) correct wrong money))
                   (user_id u)]
     end.
Proof.
  intros o. subst o. destruct (user st) as [u|] eqn:Hu.
  - pose proof (stats_run st u correct wrong money Hu) as Hrun. cbn zeta in Hrun.
    destruct (from_update _ (user_id u) (world st)) as [[[e|]|e] w'];
      rewrite Hrun; cbn [final user log]; (split; [exact Hu|]);
      eexists; (split; [reflexivity|]); reflexivity.
  - unfold updateUserStats. rewrite Hu. cbn [final]. split; [exact Hu|reflexivity].
Qed.

(** The payload computed without a cached profile: the sums from zero. *)
Lemma stats_fields_from_nothing correct wrong money :
  exists nc nw sm,
    stats_fields None correct wrong money
    = [("total_correct", VNum nc); ("total_wrong", VNum nw);
       ("total_coins", VNum (inject_Z (Qfloor sm)));
       ("money", VNum (inject_Z (Qfloor sm)));
       ("total_correct_answers", VNum nc)]
    /\ (nc == correct)%Q /\ (nw == wrong)%Q /\ (sm == money)%Q.
Proof.
  unfold stats_fields, newTotalCorrect, newTotalWrong, newTotalCoins, currentCoins.
  cbn [opt_get]. unfold js_or. cbn [truthy js_add].
  pose proof (number_plus_zero correct) as Hc.
  pose proof (number_plus_zero wrong) as Hw.
  pose proof (number_plus_zero money) as Hm.
  destruct (number_plus 0 correct) as [nc|]; [|contradiction].
  destruct (number_plus 0 wrong) as [nw|]; [|contradiction].
  destruct (number_plus 0 money) as [sm|]; [|contradiction].
  exists nc, nw, sm. cbn [math_floor same_sum] in *.
  split; [reflexivity|]. split; [exact Hc|]. split; [exact Hw|exact Hm].
Qed.

(** X6. With an identity but no cached profile yet, [updateUserStats] still
    writes: the totals it sends are the deltas alone, counted from zero, and
    the cache stays empty whatever the write answers. *)
Theorem stats_without_profile_write_deltas (st : State) u correct wrong money :
  user st = Some u ->
  userProfile st = None ->
  let o := updateUserStats correct wrong money st in
  exists nc nw nm rest,
    List.filter is_call rest = []
    /\ log (final o)
       = log st ++ [ConsoleLog "[updateUserStats] Updating user:"
                      (stats_log_args u None correct wrong money);
                    CallUpdate (object [("total_correct", VNum nc);
                                        ("total_wrong", VNum nw);
                                        ("total_coins", VNum nm);
                                        ("money", VNum nm);
                                        ("total_correct_answers", VNum nc)]) (user_id u)]
                ++ rest
    /\ (nc == correct)%Q /\ (nw == wrong)%Q /\ (nm == inject_Z (Qfloor money))%Q
    /\ userProfile (final o) = None.
Proof.
  intros Hu Hnone o. subst o.
  destruct (stats_fields_from_nothing correct wrong money)
    as (nc & nw & sm & Hfields & Hnc & Hnw & Hsm).
  exists nc, nw, (inject_Z (Qfloor sm)).
  pose proof (stats_run st u correct wrong money Hu) as Hrun. cbn zeta in Hrun.
  rewrite Hnone in Hrun. rewrite Hfields in Hrun.
  rewrite (Qfloor_comp _ _ Hsm) in *.
  destruct (from_update _ (user_id u) (world st)) as [[[e|]|e] w'];
    rewrite Hrun; cbn [final log userProfile merge_stats]; eexists;
    (split; [|split; [reflexivity|]]); try reflexivity;
    (split; [exact Hnc|]); (split; [exact Hnw|]); split; reflexivity.
Qed.

Lemma stats_fields_keys profile correct wrong money :
  (stats_fields profile correct wrong money).*1
  = ["total_correct"; "total_wrong"; "total_coins"; "money"; "total_correct_answers"].
Proof. reflexivity. Qed.

Lemma merged_lookup_other (p : Obj) fields k :
  k ∉ fields.*1 -> spread p fields !! k = p !! k.
Proof.
  intros Hk. unfold spread, object. apply lookup_union_r.
  now apply not_elem_of_list_to_map_1.
Qed.

(** X7. After a successful write with a profile cached, the cache holds, for
    each of the five stat fields, exactly the value that was written, so
    [total_coins] equals [money] and [total_correct] equals
    [total_correct_answers] in it, and every other field of the cached
    profile is as before. *)
Theorem optimistic_cache_matches_write (st : State) u p correct wrong money w' :
  user st = Some u ->
  userProfile st = Some p ->
  let payload := object (stats_fields (Some p) correct wrong money) in
  from_update payload (user_id u) (world st) = (Resolved None, w') ->
  exists p',
    userProfile (final (updateUserStats correct wrong money st)) = Some p'
    /\ (forall k, k ∈ ["total_correct"; "total_wrong"; "total_coins"; "money";
                        "total_correct_answers"] ->
          is_Some (payload !! k) /\ p' !! k = payload !! k)
    /\ (forall k, k ∉ ["total_correct"; "total_wrong"; "total_coins"; "money";
                        "total_correct_answers"] ->
          p' !! k = p !! k)
    /\ get p' "total_coins" = get p' "money"
    /\ get p' "total_correct" = get p' "total_correct_answers".
Proof.
  intros Hu Hp payload Hupd.
  pose proof (stats_run st u correct wrong money Hu) as Hrun. cbn zeta in Hrun.
  rewrite Hp in Hrun. fold payload in Hrun. rewrite Hupd in Hrun.
  rewrite Hrun. cbn [final userProfile merge_stats].
  exists (spread p (stats_fields (Some p) correct wrong money)).
  split; [reflexivity|].
  assert (Hin : forall k,
             k ∈ ["total_correct"; "total_wrong"; "total_coins"; "money";
                  "total_correct_answers"] ->
             is_Some (payload !! k)
             /\ spread p (stats_fields (Some p) correct wrong money) !! k = payload !! k).
  { intros k Hk. rewrite !elem_of_cons, elem_of_nil in Hk.
    assert (Hsome : is_Some (payload !! k)).
    { destruct Hk as [->|[->|[->|[->|[->|[]]]]]]; subst payload; eexists; reflexivity. }
    split; [exact Hsome|]. destruct Hsome as [v Hv].
    unfold spread. fold payload. rewrite Hv. now apply lookup_union_Some_l. }
  split; [exact Hin|]. split.
  - intros k Hk. apply merged_lookup_other. now rewrite stats_fields_keys.
  - unfold get.
    destruct (Hin "total_coins") as [_ ->]; [repeat constructor|].
    destruct (Hin "money") as [_ ->]; [repeat constructor|].
    destruct (Hin "total_correct") as [_ ->]; [repeat constructor|].
    destruct (Hin "total_correct_answers") as [_ ->]; [repeat constructor|].
    split; reflexivity.
Qed.

(** The stat fields of a profile that has just been merged with a payload
    of numbers. *)
Lemma merged_stats_numbers (p : Obj) nc nw nm :
  let p1 := spread p [("total_correct", VNum nc); ("total_wrong", VNum nw);
                      ("total_coins", VNum nm); ("money", VNum nm);
                      ("total_correct_answers", VNum nc)] in
  stats_typed (Some p1)
  /\ old_total (Some p1) "total_correct" = nc
  /\ old_total (Some p1) "total_wrong" = nw
  /\ old_coins_if_falsy (Some p1) = nm.
Proof.
  intros p1.
  assert (Hc : opt_get (Some p1) "total_correct" = VNum nc).
  { unfold opt_get, get, p1, spread. erewrite lookup_union_Some_l; reflexivity. }
  assert (Hw : opt_get (Some p1) "total_wrong" = VNum nw).
  { unfold opt_get, get, p1, spread. erewrite lookup_union_Some_l; reflexivity. }
  assert (Hcoins : opt_get (Some p1) "total_coins" = VNum nm).
  { unfold opt_get, get, p1, spread. erewrite lookup_union_Some_l; reflexivity. }
  assert (Hmoney : opt_get (Some p1) "money" = VNum nm).
  { unfold opt_get, get, p1, spread. erewrite lookup_union_Some_l; reflexivity. }
  unfold stats_typed, number_or_missing, old_coins_if_falsy, old_total, number_of.
  rewrite Hc, Hw, Hcoins, Hmoney. cbn [default].
  repeat split; try exact I. destruct (Qeq_bool nm 0); reflexivity.
Qed.

(** A call through the function value of the current render is the
    operation as embedded above. *)
Lemma stats_of_current_render (st : State) correct wrong money :
  updateUserStats_of (user st) (userProfile st) correct wrong money st
  = updateUserStats correct wrong money st.
Proof. reflexivity. Qed.

(** The log of a call through a function value whose identity is set. *)
Lemma stats_of_log u profile0 correct wrong money (st : State) :
  exists rest,
    log (final (updateUserStats_of (Some u) profile0 correct wrong money st))
    = log st ++ [ConsoleLog "[updateUserStats] Updating user:"
                   (stats_log_args u profile0 correct wrong money);
                 CallUpdate (object (stats_fields profile0 correct wrong money))
                   (user_id u)] ++ rest.
Proof.
  unfold updateUserStats_of, bind, console_log, await. cbn [emit advance world].
  destruct (from_update _ (user_id u) (world st)) as [[[e|]|e] w']; normal_state;
    eexists; reflexivity.
Qed.

Lemma number_plus_same x y n s :
  (x == y)%Q ->
  number_plus y n = Some s ->
  exists s', number_plus x n = Some s' /\ (s' == s)%Q.
Proof.
  intros Hxy Hsum.
  pose proof (number_plus_proper x y n n Hxy (Qeq_refl n)) as Hsame.
  rewrite Hsum in Hsame. destruct (number_plus x n) as [s'|]; [|contradiction].
  exists s'. split; [reflexivity|exact Hsame].
Qed.

(** X8. Two stat updates in a row, the first one written successfully, with
    no re-fetch in between and all sums finite. Called through the function
    value of the render that follows the first update, the second call
    writes the counters of the profile cached before the first call plus
    both deltas, added one after the other with JavaScript's [+], and coins
    floored at each call: floor(floor(old balance + first gain) + second
    gain). Called through the same function value as the first call, it
    writes what a first call with the second deltas would have written: the
    first deltas are not in it. *)
Theorem stats_accumulate_through_cache (st : State) u p c1 w1 m1 c2 w2 m2 wA
        sc1 sw1 sm1 sc2 sw2 sm2 :
  user st = Some u ->
  userProfile st = Some p ->
  stats_typed (Some p) ->
  number_plus (old_total (Some p) "total_correct") c1 = Some sc1 ->
  number_plus (old_total (Some p) "total_wrong") w1 = Some sw1 ->
  number_plus (old_coins_if_falsy (Some p)) m1 = Some sm1 ->
  number_plus sc1 c2 = Some sc2 ->
  number_plus sw1 w2 = Some sw2 ->
  number_plus (inject_Z (Qfloor sm1)) m2 = Some sm2 ->
  from_update (object (stats_fields (Some p) c1 w1 m1)) (user_id u) (world st)
  = (Resolved None, wA) ->
  let st1 := final (updateUserStats c1 w1 m1 st) in
  (exists nc nw rest,
     log (final (updateUserStats_of (user st1) (userProfile st1) c2 w2 m2 st1))
     = log st1 ++ [ConsoleLog "[updateUserStats] Updating user:"
                     (stats_log_args u (userProfile st1) c2 w2 m2);
                   CallUpdate (object [("total_correct", VNum nc);
                                       ("total_wrong", VNum nw);
                                       ("total_coins", VNum (inject_Z (Qfloor sm2)));
                                       ("money", VNum (inject_Z (Qfloor sm2)));
                                       ("total_correct_answers", VNum nc)]) (user_id u)]
               ++ rest
     /\ (nc == sc2)%Q /\ (nw == sw2)%Q)
  /\ (exists rest,
        log (final (updateUserStats_of (user st) (userProfile st) c2 w2 m2 st1))
        = log st1 ++ [ConsoleLog "[updateUserStats] Updating user:"
                        (stats_log_args u (Some p) c2 w2 m2);
                      CallUpdate (object (stats_fields (Some p) c2 w2 m2)) (user_id u)]
                  ++ rest).
Proof.
  intros Hu Hp Htyped Hsc1 Hsw1 Hsm1 Hsc2 Hsw2 Hsm2 Hupd st1.
  destruct (stats_payload_sums (Some p) c1 w1 m1 sc1 sw1 sm1 Htyped Hsc1 Hsw1 Hsm1)
    as (nc1 & nw1 & Hfields1 & Hnc1 & Hnw1).
  pose proof (stats_run st u c1 w1 m1 Hu) as Hrun. cbn zeta in Hrun.
  rewrite Hp, Hupd in Hrun.
  assert (Hu1 : user st1 = Some u) by (subst st1; rewrite Hrun; exact Hu).
  assert (Hp1 : userProfile st1
                = Some (spread p [("total_correct", VNum nc1); ("total_wrong", VNum nw1);
                                  ("total_coins", VNum (inject_Z (Qfloor sm1)));
                                  ("money", VNum (inject_Z (Qfloor sm1)));
                                  ("total_correct_answers", VNum nc1)])).
  { subst st1. rewrite Hrun. cbn [final userProfile merge_stats].
    rewrite Hfields1. reflexivity. }
  split.
  - destruct (merged_stats_numbers p nc1 nw1 (inject_Z (Qfloor sm1)))
      as (Htyped1 & Hold_c & Hold_w & Hold_m).
    cbn zeta in Htyped1, Hold_c, Hold_w, Hold_m. rewrite <- Hp1 in *.
    destruct (number_plus_same nc1 sc1 c2 sc2 Hnc1 Hsc2) as (tc & Htc & Htcq).
    destruct (number_plus_same nw1 sw1 w2 sw2 Hnw1 Hsw2) as (tw & Htw & Htwq).
    rewrite <- Hold_c in Htc. rewrite <- Hold_w in Htw. rewrite <- Hold_m in Hsm2.
    destruct (stats_payload_sums (userProfile st1) c2 w2 m2 tc tw sm2
                Htyped1 Htc Htw Hsm2) as (nc2 & nw2 & Hfields2 & Hnc2 & Hnw2).
    destruct (stats_of_log u (userProfile st1) c2 w2 m2 st1) as (rest & Hlog).
    exists nc2, nw2, rest. rewrite Hu1, Hlog, Hfields2.
    split; [reflexivity|]. split.
    + rewrite Hnc2. exact Htcq.
    + rewrite Hnw2. exact Htwq.
  - destruct (stats_of_log u (Some p) c2 w2 m2 st1) as (rest & Hlog).
    exists rest. rewrite Hu, Hp. exact Hlog.
Qed.

(** *** updateUserProfile *)

(** The run of [updateUserProfile] with an identity set, by the reply of
    its write. *)
Lemma profile_update_run fuel updates (st : State) u :
  user st = Some u ->
  match from_update updates (user_id u) (world st) with
  | (Resolved None, w') =>
      updateUserProfile chaptersData fuel updates st
      = fetchUserProfile chaptersData fuel (user_id u)
          {| user := user st; userProfile := userProfile st; world := w';
             log := log st ++ [CallUpdate updates (user_id u)] |}
  | (Resolved (Some e), w') | (Rejected e, w') =>
      updateUserProfile chaptersData fuel updates st
      = Threw e {| user := user st; userProfile := userProfile st; world := w';
                   log := log st ++ [CallUpdate updates (user_id u)] |}
  end.
Proof.
  intros Hu.
  destruct (from_update updates (user_id u) (world st)) as [[[e|]|e] w'] eqn:Hupd;
    unfold updateUserProfile; rewrite Hu; exec_with Hupd; normal_state;
    rewrite ?Hu; reflexivity.
Qed.

(** X9. [updateUserProfile] sends the given fields verbatim, addressed to
    the current identity, as its first call. The only error it can throw is
    the one of that write, in which case nothing else is called and the
    cache is untouched; once the write has succeeded it never throws,
    whatever the re-fetch runs into. It never touches the identity. *)
Theorem profile_update_throws_only_write_error fuel updates (st : State) u :
  user st = Some u ->
  let reply := fst (from_update updates (user_id u) (world st)) in
  let o := updateUserProfile chaptersData fuel updates st in
  exists evs,
    log (final o) = log st ++ CallUpdate updates (user_id u) :: evs
    /\ user (final o) = user st
    /\ (forall e, reply = Resolved (Some e) \/ reply = Rejected e ->
          evs = [] /\ userProfile (final o) = userProfile st
          /\ exists st', o = Threw e st')
    /\ (reply = Resolved None -> forall e st', o <> Threw e st').
Proof.
  intros Hu reply o. subst reply o.
  pose proof (profile_update_run fuel updates st u Hu) as Hrun.
  destruct (from_update updates (user_id u) (world st)) as [[[e|]|e] w'];
    rewrite Hrun; cbn [fst].
  - exists []. cbn [final log user userProfile].
    split; [reflexivity|]. split; [reflexivity|]. split; [|discriminate].
    intros e' [He|He]; inversion He; subst. eauto.
  - match goal with |- context [fetchUserProfile _ _ _ ?s] =>
      destruct (fetch_error_keeps_cache chaptersData fuel (user_id u) s)
        as (evs & Hlog & Huser & _)
    end.
    exists evs. cbn [log user] in Hlog, Huser. rewrite <- app_assoc in Hlog.
    split; [exact Hlog|]. split; [exact Huser|]. split.
    + intros e' [He|He]; discriminate.
    + intros _ e' st'. apply fetch_never_throws.
  - exists []. cbn [final log user userProfile].
    split; [reflexivity|]. split; [reflexivity|]. split; [|discriminate].
    intros e' [He|He]; inversion He; subst. eauto.
Qed.

(** X10. After a successful [updateUserProfile] whose re-fetch finds a row,
    the cache is that row as the store returned it: the fields sent are not
    merged into the cache locally. *)
Theorem profile_update_caches_read_back fuel updates (st : State) u data w1 w2 w3 :
  user st = Some u ->
  from_update updates (user_id u) (world st) = (Resolved None, w1) ->
  select_found (user_id u) data w1 w2 ->
  backfilled (user_id u) data w2 w3 ->
  updateUserProfile chaptersData (S fuel) updates st
  = Returned tt {| user := user st; userProfile := Some data; world := w3;
                   log := log st ++ CallUpdate updates (user_id u)
                                 :: found_events (user_id u) data |}.
Proof.
  intros Hu Hupd Hfound Hback.
  pose proof (profile_update_run (S fuel) updates st u Hu) as Hrun.
  rewrite Hupd in Hrun. rewrite Hrun.
  rewrite (fetch_found _ _ _ _ data w2 w3); [|exact Hfound|exact Hback].
  cbn [user userProfile log]. rewrite <- app_assoc. reflexivity.
Qed.

(** *** signUp, signIn and signOut by their replies *)

(** X11. [signUp] makes no Profile Store call unless the Auth Service
    created a user without error. A rejection or an error reply (even one
    that comes with a user) is thrown right after the sign-up call; a reply
    with neither error nor user ends the call silently. When the insert is
    refused, its error is thrown and nothing is fetched. In all these cases
    identity and cache are untouched. *)
Theorem signUp_failures fuel email password userData (st : State) :
  let call := CallSignUp email password (signUp_options userData) in
  let o := signUp chaptersData fuel email password userData st in
  match auth_signUp email password (signUp_options userData) (world st) with
  | (Rejected e, w1) =>
      o = Threw e {| user := user st; userProfile := userProfile st; world := w1;
                     log := log st ++ [call] |}
  | (Resolved r, w1) =>
      match su_error r, su_user r with
      | Some e, _ =>
          o = Threw e {| user := user st; userProfile := userProfile st; world := w1;
                         log := log st ++ [call] |}
      | None, None =>
          o = Returned tt {| user := user st; userProfile := userProfile st;
                             world := w1; log := log st ++ [call] |}
      | None, Some u =>
          let row := signUp_profile chaptersData email userData u in
          match from_insert row w1 with
          | (Resolved None, w2) =>
              (forall e st', o <> Threw e st') /\ user (final o) = user st
          | (Resolved (Some e), w2) | (Rejected e, w2) =>
              o = Threw e {| user := user st; userProfile := userProfile st;
                             world := w2; log := log st ++ [call; CallInsert row] |}
          end
      end
  end.
Proof.
  intros call o. subst call o.
  destruct (auth_signUp _ _ _ (world st)) as [[r|e] w1] eqn:Hsu;
    [|unfold signUp; cbn zeta; exec_with Hsu; normal_state; reflexivity].
  destruct (su_error r) as [e|] eqn:Herr;
    [unfold signUp; cbn zeta; exec_with Hsu; rewrite Herr; normal_state; reflexivity|].
  destruct (su_user r) as [u|] eqn:Huser;
    [|unfold signUp; cbn zeta; exec_with Hsu; rewrite Herr, Huser; normal_state;
      reflexivity].
  cbn zeta.
  destruct (from_insert _ w1) as [[[e|]|e] w2] eqn:Hins;
    unfold signUp; cbn zeta; exec_with Hsu; rewrite Herr, Huser; exec_with Hins;
    normal_state; try reflexivity.
  match goal with |- context [fetchUserProfile _ _ _ ?s] =>
    destruct (fetch_error_keeps_cache chaptersData fuel (user_id u) s)
      as (evs & _ & Hsame & _)
  end.
  split; [intros e st'; apply fetch_never_throws|exact Hsame].
Qed.

(** X12. A [signUp] that goes through (user created, row inserted, row
    found by the fetch) caches the row as the store returned it, not the
    row it sent, and does not set the identity itself. *)
Theorem signUp_caches_read_back fuel email password userData (st : State)
        r u data w1 w2 w3 w4 :
  auth_signUp email password (signUp_options userData) (world st) = (Resolved r, w1) ->
  su_error r = None ->
  su_user r = Some u ->
  from_insert (signUp_profile chaptersData email userData u) w1 = (Resolved None, w2) ->
  select_found (user_id u) data w2 w3 ->
  backfilled (user_id u) data w3 w4 ->
  signUp chaptersData (S fuel) email password userData st
  = Returned tt {| user := user st; userProfile := Some data; world := w4;
                   log := log st ++ [CallSignUp email password (signUp_options userData);
                                     CallInsert (signUp_profile chaptersData email userData u)]
                                 ++ found_events (user_id u) data |}.
Proof.
  intros Hsu Herr Huser Hins Hfound Hback.
  unfold signUp. cbn zeta. exec_with Hsu. rewrite Herr, Huser. exec_with Hins.
  rewrite (fetch_found _ _ _ _ data w3 w4); [|exact Hfound|exact Hback].
  unfold advance. cbn [user userProfile log]. rewrite <- !app_assoc. reflexivity.
Qed.

(** X13. [signIn] makes one call, the password sign-in, and nothing else: no
    Profile Store call, no write to identity or cache (both are left to the
    auth-change notification). It throws exactly when that call rejects or
    reports an error, and then that error. *)
Theorem signIn_only_asks email password (st : State) :
  let o := signIn email password st in
  log (final o) = log st ++ [CallSignIn email password]
  /\ user (final o) = user st
  /\ userProfile (final o) = userProfile st
  /\ match fst (auth_signInWithPassword email password (world st)) with
     | Resolved None => o = Returned tt (final o)
     | Resolved (Some e) | Rejected e => o = Threw e (final o)
     end.
Proof.
  intros o. subst o. unfold signIn, bind, await.
  destruct (auth_signInWithPassword email password (world st)) as [[[e|]|e] w'];
    cbn beta iota; normal_state; cbn [fst]; repeat split; reflexivity.
Qed.

(** The run of [signOut], by the replies of the Auth Service. *)
Lemma signOut_run (st : State) :
  let cleared w evs :=
    Returned tt {| user := None; userProfile := None; world := w;
                   log := log st ++ evs |} in
  match auth_getSession (world st) with
  | (Resolved None, w1) =>
      signOut st = cleared w1 [CallGetSession; SetUser None; SetUserProfile None]
  | (Resolved (Some _), w1) =>
      match auth_signOut w1 with
      | (Resolved None, w2) =>
          signOut st = cleared w2 [CallGetSession; CallSignOut;
                                   SetUser None; SetUserProfile None]
      | (Resolved (Some e), w2) | (Rejected e, w2) =>
          signOut st = cleared w2 [CallGetSession; CallSignOut;
                                   SetUser None; SetUserProfile None;
                                   ConsoleError "Sign out error:" e]
      end
  | (Rejected e, w1) =>
      signOut st = cleared w1 [CallGetSession; SetUser None; SetUserProfile None;
                               ConsoleError "Sign out error:" e]
  end.
Proof.
  cbn zeta. unfold signOut, try_catch, bind, await.
  destruct (auth_getSession (world st)) as [[[s|]|e] w1]; cbn beta iota;
    [cbn [advance world]; destruct (auth_signOut w1) as [[[e|]|e] w2]; cbn beta iota| |];
    normal_state; reflexivity.
Qed.

(** X14. [signOut] asks the Auth Service to invalidate the session exactly
    when [getSession] reported one. It always clears identity and cache, in
    that order, after its calls, and writes at most one [console.error]
    line, after the state is cleared. *)
Theorem signOut_asks_only_with_session (st : State) :
  exists calls errs w',
    signOut st
    = Returned tt {| user := None; userProfile := None; world := w';
                     log := log st ++ calls ++ [SetUser None; SetUserProfile None]
                                   ++ errs |}
    /\ (calls = [CallGetSession] \/ calls = [CallGetSession; CallSignOut])
    /\ (calls = [CallGetSession; CallSignOut]
        <-> exists s w1, auth_getSession (world st) = (Resolved (Some s), w1))
    /\ (errs = [] \/ exists e, errs = [ConsoleError "Sign out error:" e]).
Proof.
  pose proof (signOut_run st) as Hrun. cbn zeta in Hrun.
  destruct (auth_getSession (world st)) as [[[s|]|e] w1].
  - destruct (auth_signOut w1) as [[[e|]|e] w2]; rewrite Hrun;
      eexists [CallGetSession; CallSignOut], _, _;
      (split; [reflexivity|]); (split; [now right|]);
      (split; [split; [intros _; eauto|reflexivity]|]); eauto.
  - rewrite Hrun. eexists [CallGetSession], [], _.
    split; [reflexivity|]. split; [now left|]. split; [|now left].
    split; [discriminate|]. intros (s & w & Hs). discriminate.
  - rewrite Hrun. eexists [CallGetSession], _, _.
    split; [reflexivity|]. split; [now left|]. split; [|eauto].
    split; [discriminate|]. intros (s & w & Hs). discriminate.
Qed.

(** *** The chapter signUp unlocks *)

(** X15. The chapter [signUp] unlocks is the first catalog entry, in catalog
    order, whose class level equals the requested one and whose order is 1,
    and none if there is no such entry. The comparison is strict: a class
    level that is missing, null or given as a string unlocks nothing,
    whatever the catalog holds. *)
Theorem signUp_unlocks_first_chapter_of_level email userData u :
  let unlocked := get (signUp_profile chaptersData email userData u) "unlocked_chapters" in
  match get userData "class_level" with
  | VNum q =>
      (exists c, first_chapter_of q chaptersData c
                 /\ unlocked = VArr [VStr (chapter_id c)])
      \/ (no_chapter_of q chaptersData /\ unlocked = VArr [])
  | _ => unlocked = VArr []
  end.
Proof.
  intros unlocked. subst unlocked. unfold signUp_profile.
  destruct (get userData "class_level") as [| |b|q|s|l] eqn:Hlevel;
    try (rewrite find_none_everywhere; [reflexivity|intros c; reflexivity]).
  assert (Htest : forall c,
             strict_eq_num (chapter_class_level c) (VNum q)
             && Qeq_bool (chapter_order c) 1 = true <-> first_of_level q c).
  { intros c. unfold first_of_level. cbn [strict_eq_num].
    rewrite andb_true_iff, !Qeq_bool_iff. reflexivity. }
  pose proof (find_first_chapter q _ chaptersData Htest) as Hfind.
  destruct (List.find _ chaptersData) as [c|].
  - left. exists c. split; [exact Hfind|reflexivity].
  - right. split; [exact Hfind|reflexivity].
Qed.

(** *** The mount effect *)

Lemma prefix_append (phrase s : string) :
  String.prefix phrase s = true <-> exists b, s = String.append phrase b.
Proof.
  revert s. induction phrase as [|a phrase IH]; intros s; cbn [String.append].
  - destruct s; cbn [String.prefix]; split; eauto.
  - destruct s as [|b s]; cbn [String.prefix].
    + split; [discriminate|]. intros (x & Hx). discriminate.
    + destruct (Ascii.ascii_dec a b) as [->|Hab].
      * rewrite IH. split; intros (x & Hx); exists x.
        -- now rewrite Hx.
        -- now inversion Hx.
      * split; [discriminate|]. intros (x & Hx). inversion Hx. subst.
        exfalso. apply Hab. reflexivity.
Qed.

(** [includes] finds the phrase exactly when it occurs somewhere in [s]. *)
Lemma includes_occurs (phrase s : string) :
  includes phrase s = true
  <-> exists a b, s = String.append a (String.append phrase b).
Proof.
  induction s as [|c s IH]; cbn [includes]; rewrite orb_true_iff, prefix_append.
  - split.
    + intros [(b & Hb)|Hf]; [|discriminate]. now exists EmptyString, b.
    + intros (a & b & Hab). left. destruct a; [now exists b|discriminate].
  - rewrite IH. split.
    + intros [(b & Hb)|(a & b & Hab)]; [now exists EmptyString, b|].
      exists (String c a), b. cbn [String.append]. now rewrite Hab.
    + intros (a & b & Hab). destruct a as [|c' a]; cbn [String.append] in Hab.
      * left. now exists b.
      * right. exists a, b. now inversion Hab.
Qed.

(** X16. The initial session resolution always ends with [loading] false and
    never writes the cached profile itself. When [getSession] resolves, the
    identity becomes the session's user (null without a session) and a
    profile fetch for that user is started only if there is one; when it
    rejects, the error is logged, the identity is left as it was, and a
    [signOut] is started exactly when the error message contains
    "Refresh Token Not Found". *)
Theorem initial_session_always_ends_loading (p : @Mounted W) :
  let p' := getInitialSession p in
  loading p' = false
  /\ userProfile (provider p') = userProfile (provider p)
  /\ match fst (auth_getSession (world (provider p))) with
     | Resolved session =>
         user (provider p') = user_of session
         /\ log (provider p') = log (provider p)
                                ++ [CallGetSession; SetUser (user_of session)]
         /\ started p'
            = started p ++ match session with
                           | Some s => [StartFetchUserProfile (user_id (session_user s))]
                           | None => []
                           end
     | Rejected e =>
         user (provider p') = user (provider p)
         /\ log (provider p') = log (provider p)
                                ++ [CallGetSession;
                                    ConsoleError "Session initialization error:" e]
         /\ started p'
            = started p ++ (if includes "Refresh Token Not Found" (message e)
                            then [StartSignOut] else [])
     end.
Proof.
  intros p'. subst p'. unfold getInitialSession, await.
  destruct (auth_getSession (world (provider p))) as [[session|e] w1]; cbn [fst].
  - unfold onSession. destruct session as [s|]; cbn; rewrite <- ?app_assoc;
      repeat split; try reflexivity. now rewrite app_nil_r.
  - unfold onSessionError.
    assert (Hcond : negb (String.eqb (message e) "")
                    && includes "Refresh Token Not Found" (message e)
                    = includes "Refresh Token Not Found" (message e)).
    { destruct (String.eqb_spec (message e) "") as [->|Hne]; reflexivity. }
    rewrite Hcond.
    destruct (includes "Refresh Token Not Found" (message e)); cbn;
      rewrite <- ?app_assoc; repeat split; try reflexivity. now rewrite app_nil_r.
Qed.

(** X17. An auth-change notification for a signed-in user replaces the
    identity at once but leaves the cached profile alone until the fetch it
    starts has finished. If that fetch fails, it ends with the new identity
    paired with the profile cached before the change. *)
Theorem auth_change_keeps_old_profile_when_fetch_fails (p : @Mounted W) s e evs :
  let u := session_user s in
  let p' := onAuthStateChange (Some s) p in
  fetch_fails chaptersData (user_id u) (world (provider p)) e evs ->
  user (provider p') = Some u
  /\ userProfile (provider p') = userProfile (provider p)
  /\ started p' = started p ++ [StartFetchUserProfile (user_id u)]
  /\ exists w', forall fuel, length evs <= fuel ->
       run_task chaptersData fuel (StartFetchUserProfile (user_id u)) (provider p')
       = Returned tt {| user := Some u; userProfile := userProfile (provider p);
                        world := w';
                        log := log (provider p) ++ SetUser (Some u) :: evs
                               ++ [ConsoleError "Error fetching user profile:" e] |}.
Proof.
  intros u p' Hfail. subst p'.
  unfold onAuthStateChange, effect, start, setUser.
  cbn [user_of option_map provider final user userProfile started loading run_task].
  fold u. split; [reflexivity|]. split; [reflexivity|]. split; [reflexivity|].
  destruct (fetch_failure chaptersData _ _ _ _ Hfail
              {| user := Some u; userProfile := userProfile (provider p);
                 world := world (provider p);
                 log := log (provider p) ++ [SetUser (Some u)] |} eq_refl)
    as [w' Hrun].
  exists w'. intros fuel Hfuel. rewrite (Hrun fuel Hfuel).
  cbn [user userProfile log]. rewrite <- app_assoc. reflexivity.
Qed.

Lemma signOut_run_clears (st : State) :
  exists st', signOut st = Returned tt st' /\ user st' = None /\ userProfile st' = None.
Proof.
  pose proof (signOut_run st) as Hrun. cbn zeta in Hrun.
  destruct (auth_getSession (world st)) as [[[s|]|e] w1];
    [destruct (auth_signOut w1) as [[[e|]|e] w2]| |];
    rewrite Hrun; eexists; (split; [reflexivity|]); split; reflexivity.
Qed.

(** X18. When the initial [getSession] rejects with a message containing
    "Refresh Token Not Found", the provider stops loading, starts a
    [signOut], and once that has run both identity and cache are null,
    whatever the Auth Service answers to it. *)
Theorem lost_refresh_token_signs_out (p : @Mounted W) e w1 fuel :
  auth_getSession (world (provider p)) = (Rejected e, w1) ->
  includes "Refresh Token Not Found" (message e) = true ->
  let p' := getInitialSession p in
  loading p' = false
  /\ started p' = started p ++ [StartSignOut]
  /\ exists st',
       run_task chaptersData fuel StartSignOut (provider p') = Returned tt st'
       /\ user st' = None /\ userProfile st' = None.
Proof.
  intros Hreject Hphrase p'. subst p'. unfold getInitialSession, await.
  rewrite Hreject. unfold onSessionError. rewrite Hphrase.
  assert (Hne : String.eqb (message e) "" = false).
  { destruct (String.eqb_spec (message e) "") as [Heq|Hne]; [|reflexivity].
    rewrite Heq in Hphrase. discriminate. }
  rewrite Hne. cbn [negb andb]. split; [reflexivity|]. split; [reflexivity|].
  cbn [run_task]. apply signOut_run_clears.
Qed.

End Operations.

(** * The further properties on concrete inputs *)

Section ConcreteOperations.

Import Examples Cases.

Lemma self_heal_unbounded_witness :
  never_found (W := nat) (H := Blind.client) catalog "ghost" (fun _ => True)
  /\ exists st',
       fetchUserProfile (H := Blind.client) catalog 3 "ghost"
         {| user := None; userProfile := None; world := O; log := [] |}
       = OutOfFuel st'
       /\ length (List.filter is_insert (log st')) = 3%nat.
Proof.
  assert (Hblind : never_found (W := nat) (H := Blind.client) catalog "ghost"
                     (fun _ => True)).
  { intros n _. exists Blind.someone, (S n). split; [|exact I].
    exists n, n. split; [|split; reflexivity].
    eexists _, _. split; [reflexivity|]. split; reflexivity. }
  split; [exact Hblind|].
  destruct (self_heal_unbounded (H := Blind.client) catalog "ghost" (fun _ => True)
              Hblind 3 {| user := None; userProfile := None; world := O; log := [] |} I)
    as (st' & Hrun & Hcount & _).
  exists st'. split; [exact Hrun|exact Hcount].
Defined.

Lemma lost_refresh_token_witness :
  auth_getSession (Supabase := Expired.client) tt = (Rejected Expired.token_error, tt)
  /\ includes "Refresh Token Not Found" (message Expired.token_error) = true
  /\ loading (getInitialSession (H := Expired.client) just_mounted) = false
  /\ exists st',
       run_task (H := Expired.client) catalog 1 StartSignOut
         (provider (getInitialSession (H := Expired.client) just_mounted))
       = Returned tt st'
       /\ user st' = None /\ userProfile st' = None.
Proof.
  split; [reflexivity|]. split; [reflexivity|].
  destruct (lost_refresh_token_signs_out (H := Expired.client) catalog just_mounted
              Expired.token_error tt 1 eq_refl eq_refl) as (Hload & _ & Hrun).
  split; [exact Hload|exact Hrun].
Defined.

End ConcreteOperations.

Section ConcreteStore.

Import Examples Cases.
#[local] Existing Instance Mem.client.
#[local] Existing Instance Mem.coercions.


Lemma stats_without_profile_witness :
  user (Mem.start (Some ann) None (with_row played_row true)) = Some ann
  /\ userProfile (Mem.start (Some ann) None (with_row played_row true)) = None
  /\ exists nc nw nm,
       In (CallUpdate (object [("total_correct", VNum nc); ("total_wrong", VNum nw);
                               ("total_coins", VNum nm); ("money", VNum nm);
                               ("total_correct_answers", VNum nc)]) "u1")
          (log (final (updateUserStats 2 1 10.7
                         (Mem.start (Some ann) None (with_row played_row true)))))
       /\ (nc == 2)%Q /\ (nw == 1)%Q /\ (nm == 10)%Q.
Proof.
  split; [reflexivity|]. split; [reflexivity|].
  destruct (stats_without_profile_write_deltas
              (Mem.start (Some ann) None (with_row played_row true)) ann 2 1 10.7
              eq_refl eq_refl)
    as (nc & nw & nm & rest & _ & Hlog & Hnc & Hnw & Hnm & _).
  exists nc, nw, nm. split; [|split; [exact Hnc|split; [exact Hnw|exact Hnm]]].
  rewrite Hlog. cbn [log Mem.start app]. right. left. reflexivity.
Defined.

Lemma optimistic_cache_witness :
  user (Mem.start (Some ann) (Some played_row) (with_row played_row true)) = Some ann
  /\ fst (from_update (object (stats_fields (Some played_row) 2 1 10.7)) "u1"
            (with_row played_row true)) = Resolved None
  /\ exists p',
       userProfile (final (updateUserStats 2 1 10.7
                             (Mem.start (Some ann) (Some played_row)
                                (with_row played_row true)))) = Some p'
       /\ get p' "total_coins" = get p' "money"
       /\ get p' "total_correct" = get p' "total_correct_answers"
       /\ p' !! "id" = played_row !! "id".
Proof.
  split; [reflexivity|]. split; [reflexivity|].
  edestruct (optimistic_cache_matches_write
               (Mem.start (Some ann) (Some played_row) (with_row played_row true))
               ann played_row 2 1 10.7)
    as (p' & Hcache & _ & Hother & Hcoins & Hcorrect);
    [reflexivity|reflexivity|reflexivity|].
  exists p'. split; [exact Hcache|]. split; [exact Hcoins|]. split; [exact Hcorrect|].
  apply Hother. rewrite !elem_of_cons, elem_of_nil.
  intros [Hk|[Hk|[Hk|[Hk|[Hk|[]]]]]]; discriminate.
Defined.

Lemma stats_accumulate_witness :
  user playing = Some ann
  /\ userProfile playing = Some played_row
  /\ stats_typed (Some played_row)
  /\ number_plus (old_total (Some played_row) "total_correct") 2 = Some 7%Q
  /\ number_plus (old_total (Some played_row) "total_wrong") 1 = Some 4%Q
  /\ number_plus (old_coins_if_falsy (Some played_row)) 0.5 = Some (505 # 10)%Q
  /\ number_plus 7 1 = Some 8%Q
  /\ number_plus 4 0 = Some 4%Q
  /\ number_plus (inject_Z (Qfloor (505 # 10))) 0.5 = Some (505 # 10)%Q
  /\ (exists nc nw,
        In (CallUpdate (object [("total_correct", VNum nc); ("total_wrong", VNum nw);
                                ("total_coins", VNum 50); ("money", VNum 50);
                                ("total_correct_answers", VNum nc)]) "u1")
           (log (final (updateUserStats_of
                          (user (final (updateUserStats 2 1 0.5 playing)))
                          (userProfile (final (updateUserStats 2 1 0.5 playing)))
                          1 0 0.5 (final (updateUserStats 2 1 0.5 playing)))))
        /\ (nc == 8)%Q /\ (nw == 4)%Q)
  /\ In (CallUpdate (object (stats_fields (Some played_row) 1 0 0.5)) "u1")
        (log (final (updateUserStats_of (user playing) (userProfile playing) 1 0 0.5
                       (final (updateUserStats 2 1 0.5 playing)))))
  /\ get (object (stats_fields (Some played_row) 1 0 0.5)) "total_correct" = VNum 6.
Proof.
  assert (Htyped : stats_typed (Some played_row)) by (repeat split; exact I).
  split; [reflexivity|]. split; [reflexivity|]. split; [exact Htyped|].
  do 6 (split; [reflexivity|]).
  edestruct (stats_accumulate_through_cache playing ann played_row 2 1 0.5 1 0 0.5
               (snd (from_update (object (stats_fields (Some played_row) 2 1 0.5)) "u1"
                       (world playing)))
               7 4 (505 # 10) 8 4 (505 # 10))
    as ((nc & nw & rest & Hlog & Hnc & Hnw) & (rest' & Hstale));
    [reflexivity|reflexivity|exact Htyped|reflexivity..|].
  split; [|split; [|reflexivity]].
  - exists nc, nw. split; [|split; [exact Hnc|exact Hnw]].
    rewrite Hlog. apply in_or_app. right. right. left. reflexivity.
  - rewrite Hstale. apply in_or_app. right. right. left. reflexivity.
Defined.

Lemma profile_update_failure_witness :
  user (Mem.start (Some ann) (Some played_row) (with_row played_row false)) = Some ann
  /\ exists st',
       updateUserProfile catalog 1 new_avatar
         (Mem.start (Some ann) (Some played_row) (with_row played_row false))
       = Threw Mem.network_error st'
       /\ log st' = [CallUpdate new_avatar "u1"].
Proof.
  split; [reflexivity|].
  destruct (profile_update_throws_only_write_error catalog 1 new_avatar
              (Mem.start (Some ann) (Some played_row) (with_row played_row false))
              ann eq_refl) as (evs & Hlog & _ & Hfail & _).
  destruct (Hfail Mem.network_error (or_introl eq_refl)) as (Hevs & _ & st' & Hrun).
  exists st'. split; [exact Hrun|].
  rewrite Hrun, Hevs in Hlog. exact Hlog.
Defined.

Lemma profile_update_read_back_witness :
  from_update new_avatar "u1" (with_row played_row true)
  = (Resolved None, with_row played_with_avatar true)
  /\ select_found "u1" played_with_avatar (with_row played_with_avatar true)
       (with_row played_with_avatar true)
  /\ userProfile (final (updateUserProfile catalog 1 new_avatar
                           (Mem.start (Some ann) (Some played_row)
                              (with_row played_row true))))
     = Some played_with_avatar.
Proof.
  assert (Hupd : from_update new_avatar "u1" (with_row played_row true)
                 = (Resolved None, with_row played_with_avatar true))
    by (vm_compute; reflexivity).
  assert (Hfound : select_found "u1" played_with_avatar
                     (with_row played_with_avatar true)
                     (with_row played_with_avatar true)).
  { eexists. split; [reflexivity|]. split; reflexivity. }
  split; [exact Hupd|]. split; [exact Hfound|].
  rewrite (profile_update_caches_read_back catalog 0 new_avatar
             (Mem.start (Some ann) (Some played_row) (with_row played_row true))
             ann played_with_avatar _ _ (with_row played_with_avatar true)
             eq_refl Hupd Hfound eq_refl).
  reflexivity.
Defined.

Lemma signUp_read_back_witness :
  from_insert sent_row (Mem.with_session (Some ann_account) (no_rows None))
  = (Resolved None, signed_up)
  /\ select_found "ann@example.org" kept_row signed_up signed_up
  /\ userProfile (final (signUp catalog 1 "ann@example.org" "secret" new_user_data
                           (Mem.start None None (no_rows None))))
     = Some kept_row
  /\ user (final (signUp catalog 1 "ann@example.org" "secret" new_user_data
                    (Mem.start None None (no_rows None))))
     = None
  /\ kept_row <> sent_row.
Proof.
  assert (Hins : from_insert sent_row (Mem.with_session (Some ann_account) (no_rows None))
                 = (Resolved None, signed_up)) by (vm_compute; reflexivity).
  assert (Hfound : select_found "ann@example.org" kept_row signed_up signed_up).
  { eexists. split; [reflexivity|]. split; reflexivity. }
  assert (Hsu : auth_signUp "ann@example.org" "secret" (signUp_options new_user_data)
                  (world (Mem.start None None (no_rows None)))
                = (Resolved {| su_user := Some ann_account; su_error := None |},
                   Mem.with_session (Some ann_account) (no_rows None))).
  { vm_compute. reflexivity. }
  split; [exact Hins|]. split; [exact Hfound|].
  rewrite (signUp_caches_read_back catalog 0 "ann@example.org" "secret" new_user_data
             (Mem.start None None (no_rows None))
             {| su_user := Some ann_account; su_error := None |} ann_account kept_row
             (Mem.with_session (Some ann_account) (no_rows None)) signed_up signed_up
             signed_up Hsu eq_refl eq_refl Hins Hfound eq_refl).
  split; [reflexivity|]. split; [reflexivity|].
  intros Heq.
  assert (Hcol : kept_row !! "created_by" = sent_row !! "created_by") by (rewrite Heq; reflexivity).
  vm_compute in Hcol. discriminate.
Defined.

Lemma auth_change_stale_witness :
  fetch_fails catalog "u2" (with_row played_row false) Mem.network_error [CallSelect "u2"]
  /\ exists w',
       run_task catalog 1 (StartFetchUserProfile "u2")
         (provider (onAuthStateChange (Some {| session_user := bob |}) (showing_ann false)))
       = Returned tt {| user := Some bob; userProfile := Some played_row; world := w';
                        log := [SetUser (Some bob); CallSelect "u2";
                                ConsoleError "Error fetching user profile:"
                                  Mem.network_error] |}.
Proof.
  assert (Hfail : fetch_fails catalog "u2" (with_row played_row false)
                    Mem.network_error [CallSelect "u2"]).
  { eapply fails_select_error; [reflexivity|reflexivity|discriminate]. }
  split; [exact Hfail|].
  destruct (auth_change_keeps_old_profile_when_fetch_fails catalog (showing_ann false)
              {| session_user := bob |} _ _ Hfail) as (_ & _ & _ & w' & Hrun).
  exists w'. exact (Hrun 1%nat (le_n 1)).
Defined.

End ConcreteStore.
